(** * Verification of the AXML decoder of apkdig (package axml)

    Shallow embedding of [src/axml/resourceidsblock.go]: the resource-id
    block codec ([UnmarshalBinary], [MarshalBinary], [ReadResourceIdsBlock])
    and the chunk loop [ReadAXML].

    Conventions of the embedding:
    - a Go [uint32] / [uint16] is a [Z] in its range; arithmetic that can
      wrap is written with [wrap32];
    - a byte is a [Z] in [0, 256); a Go [[]byte] and a Go [string] (UTF-8
      bytes) are [list Z];
    - [io.ReadSeeker] is the type class [ReadSeeker]; [bytes.Reader] is its
      instance [BytesReader];
    - [binary.Read] into a fixed-size value reads with [io.ReadFull] and
      decodes only on success: on failure the destination keeps its old
      value, which is how the code's ignored errors behave. *)

From Stdlib Require Import ZArith List Lia Bool.
Import ListNotations.
Open Scope Z_scope.

(** ** Machine integers and little-endian encoding *)

Definition wrap32 (z : Z) : Z := z mod 2 ^ 32.

Definition is_u32 (z : Z) : Prop := 0 <= z < 2 ^ 32.
Definition is_byte (z : Z) : Prop := 0 <= z < 256.

(** [binary.LittleEndian.Uint32] on a 4-byte slice (the first 4 bytes). *)
Definition le32 (bs : list Z) : Z :=
  match bs with
  | b0 :: b1 :: b2 :: b3 :: _ =>
      Z.lor b0 (Z.lor (Z.shiftl b1 8) (Z.lor (Z.shiftl b2 16) (Z.shiftl b3 24)))
  | _ => 0
  end.

(** [binary.LittleEndian.Uint16]. *)
Definition le16 (bs : list Z) : Z :=
  match bs with
  | b0 :: b1 :: _ => Z.lor b0 (Z.shiftl b1 8)
  | _ => 0
  end.

(** [binary.LittleEndian.PutUint32]: [byte(v), byte(v>>8), ...]. *)
Definition put_u32 (v : Z) : list Z :=
  [Z.land v 255; Z.land (Z.shiftr v 8) 255;
   Z.land (Z.shiftr v 16) 255; Z.land (Z.shiftr v 24) 255].

(** Decoding a byte slice into [[]uint16], two bytes per element. *)
Fixpoint le16s (bs : list Z) : list Z :=
  match bs with
  | b0 :: b1 :: rest => le16 [b0; b1] :: le16s rest
  | _ => []
  end.

(** Decoding a byte slice into [[]uint32], four bytes per element. *)
Fixpoint le32s (n : nat) (bs : list Z) : list Z :=
  match n with
  | O => []
  | S n' => le32 bs :: le32s n' (skipn 4 bs)
  end.

(** ** Readers: [io.ReadSeeker] *)

(** The two errors [io.ReadFull] reports. *)
Inductive io_error := EOF | ErrUnexpectedEOF.

Inductive result (A : Type) :=
| Ok (a : A)
| Err (e : io_error).
Arguments Ok {A} a.
Arguments Err {A} e.

(** [io.ReadFull(r, buf)] with [len(buf) = n] and [r.Seek(offset, whence)]
    (the seek's results are never used by the code, only its effect). *)
Class ReadSeeker (R : Type) := {
  read_full : nat -> R -> result (list Z) * R;
  seek : Z -> Z -> R -> R
}.

(** [bytes.Reader]: the data and the read position [i]. *)
Record BytesReader := { rd_s : list Z; rd_i : Z }.

Definition bytes_NewReader (b : list Z) : BytesReader := {| rd_s := b; rd_i := 0 |}.

(** [io.ReadFull] over [bytes.Reader.Read]: [Read] copies what is left and
    reports [EOF] once the position is at or past the end; [ReadFull]
    turns a partial read into [ErrUnexpectedEOF]. A zero-length read
    succeeds without calling [Read]. *)
Definition bytes_read_full (n : nat) (r : BytesReader) : result (list Z) * BytesReader :=
  let len := Z.of_nat (length r.(rd_s)) in
  if (n =? 0)%nat then (Ok [], r)
  else if len <=? r.(rd_i) then (Err EOF, r)
  else if r.(rd_i) + Z.of_nat n <=? len then
    (Ok (firstn n (skipn (Z.to_nat r.(rd_i)) r.(rd_s))),
     {| rd_s := r.(rd_s); rd_i := r.(rd_i) + Z.of_nat n |})
  else (Err ErrUnexpectedEOF, {| rd_s := r.(rd_s); rd_i := len |}).

(** [bytes.Reader.Seek]: whence 0 is [io.SeekStart], 1 [io.SeekCurrent],
    2 [io.SeekEnd]; a negative target is an error and leaves [i] alone. *)
Definition bytes_seek (offset whence : Z) (r : BytesReader) : BytesReader :=
  let abs :=
    if whence =? 0 then Some offset
    else if whence =? 1 then Some (r.(rd_i) + offset)
    else if whence =? 2 then Some (Z.of_nat (length r.(rd_s)) + offset)
    else None in
  match abs with
  | Some a => if a <? 0 then r else {| rd_s := r.(rd_s); rd_i := a |}
  | None => r
  end.

#[global] Instance BytesReader_ReadSeeker : ReadSeeker BytesReader := {
  read_full := bytes_read_full;
  seek := bytes_seek
}.

Section BinaryRead.
Context {R : Type} `{ReadSeeker R}.

(** [binary.Read(r, binary.LittleEndian, &x)] for [x uint32]. *)
Definition read_u32 (r : R) : result Z * R :=
  match read_full 4 r with
  | (Ok bs, r') => (Ok (le32 bs), r')
  | (Err e, r') => (Err e, r')
  end.

(** [binary.Read] for [x uint16]. *)
Definition read_u16 (r : R) : result Z * R :=
  match read_full 2 r with
  | (Ok bs, r') => (Ok (le16 bs), r')
  | (Err e, r') => (Err e, r')
  end.

(** [binary.Read] into a [uint32] whose error is ignored: on failure the
    variable keeps its previous value [old]. *)
Definition read_u32_into (old : Z) (r : R) : Z * R :=
  match read_u32 r with
  | (Ok v, r') => (v, r')
  | (Err _, r') => (old, r')
  end.

Definition read_u16_into (old : Z) (r : R) : Z * R :=
  match read_u16 r with
  | (Ok v, r') => (v, r')
  | (Err _, r') => (old, r')
  end.
End BinaryRead.

(** ** The resource-id block *)

Definition CHUNK_AXML_FILE           : Z := 524291.   (* 0x00080003 *)
Definition CHUNK_RESOURCEIDS         : Z := 524672.   (* 0x00080180 *)
Definition CHUNK_STRINGS             : Z := 1835009.  (* 0x001C0001 *)
Definition CHUNK_XML_END_NAMESPACE   : Z := 1048833.  (* 0x00100101 *)
Definition CHUNK_XML_END_TAG         : Z := 1048835.  (* 0x00100103 *)
Definition CHUNK_XML_START_NAMESPACE : Z := 1048832.  (* 0x00100100 *)
Definition CHUNK_XML_START_TAG       : Z := 1048834.  (* 0x00100102 *)
Definition CHUNK_XML_TEXT            : Z := 1048836.  (* 0x00100104 *)
Definition UTF8_FLAG                 : Z := 256.      (* 0x00000100 *)
Definition SKIP_BLOCK                : Z := 4294967295. (* 0xFFFFFFFF *)
Definition START_TAG_FLAG            : Z := 1310740.  (* 0x00140014 *)

(** [ResourceIdsBlock] embeds [AxmlBlock]; its fields are [Type uint32]
    and [Size uint32] (the layout comment of the block), and [Offset int64]
    ([rid.Offset = offset] with [offset int64]). *)
Record ResourceIdsBlock := {
  Type_ : Z;
  Size : Z;
  Offset : Z;
  Ids : list Z
}.

(** Errors [UnmarshalBinary] returns: a read error, or the
    ["Expected type=%X, got type=%X"] error. *)
Inductive rid_error :=
| RidRead (e : io_error)
| RidWrongType (got : Z).

(** [b.Size/4-2] in [uint32] arithmetic. *)
Definition rid_count (size : Z) : nat := Z.to_nat (wrap32 (size / 4 - 2)).

Definition with_type (b : ResourceIdsBlock) (t : Z) : ResourceIdsBlock :=
  {| Type_ := t; Size := b.(Size); Offset := b.(Offset); Ids := b.(Ids) |}.
Definition with_size (b : ResourceIdsBlock) (s : Z) : ResourceIdsBlock :=
  {| Type_ := b.(Type_); Size := s; Offset := b.(Offset); Ids := b.(Ids) |}.
Definition with_ids (b : ResourceIdsBlock) (ids : list Z) : ResourceIdsBlock :=
  {| Type_ := b.(Type_); Size := b.(Size); Offset := b.(Offset); Ids := ids |}.

(** The loop [for i := 0; i < n; i++ { if err := binary.Read(..., &b.Ids[i]) ... }]
    over a freshly made slice of [n] zeros: on the first failed read it
    returns, leaving that slot and all later ones zero. *)
Fixpoint unmarshal_ids {R} `{ReadSeeker R} (n : nat) (r : R) : list Z * option io_error :=
  match n with
  | O => ([], None)
  | S n' =>
      match read_u32 r with
      | (Ok v, r') => let (vs, e) := unmarshal_ids n' r' in (v :: vs, e)
      | (Err e, _) => (repeat 0 n, Some e)
      end
  end.

(** [func (b *ResourceIdsBlock) UnmarshalBinary(data []byte) error]: the
    receiver [b] before the call, the receiver after it and the error. *)
Definition UnmarshalBinary (b : ResourceIdsBlock) (data : list Z)
  : ResourceIdsBlock * option rid_error :=
  let reader := bytes_NewReader data in
  match read_u32 reader with
  | (Err e, _) => (b, Some (RidRead e))
  | (Ok t, reader) =>
      let b := with_type b t in
      if negb (t =? CHUNK_RESOURCEIDS) then (b, Some (RidWrongType t))
      else
        match read_u32 reader with
        | (Err e, _) => (b, Some (RidRead e))
        | (Ok s, reader) =>
            let b := with_size b s in
            let (ids, e) := unmarshal_ids (rid_count s) reader in
            (with_ids b ids, option_map RidRead e)
        end
  end.

(** [func (b ResourceIdsBlock) MarshalBinary() (data []byte, err error)]:
    writes into a [bytes.Buffer], whose writes do not fail. *)
Definition MarshalBinary (b : ResourceIdsBlock) : list Z * option rid_error :=
  (put_u32 b.(Type_) ++ put_u32 b.(Size) ++ flat_map put_u32 b.(Ids), None).

(** The loop of [ReadResourceIdsBlock]: the errors of [binary.Read] are
    dropped, a failed read leaves its slot at zero and the loop goes on. *)
Fixpoint read_ids {R} `{ReadSeeker R} (n : nat) (r : R) : list Z * R :=
  match n with
  | O => ([], r)
  | S n' =>
      let (v, r') := read_u32_into 0 r in
      let (vs, r'') := read_ids n' r' in (v :: vs, r'')
  end.

(** [func ReadResourceIdsBlock(reader io.ReadSeeker, size uint32, offset int64)
    (rid ResourceIdsBlock, err error)]; the final reader is the effect on
    the caller's reader. *)
Definition ReadResourceIdsBlock {R} `{ReadSeeker R} (reader : R) (size offset : Z)
  : (ResourceIdsBlock * option rid_error) * R :=
  let reader := seek offset 0 reader in
  let (ids, reader) := read_ids (rid_count size) reader in
  ({| Type_ := CHUNK_RESOURCEIDS; Size := size; Offset := offset; Ids := ids |}, None,
   reader).

(** ** UTF-16 decoding and Go's [string([]rune)] *)

(** [utf16.Decode]: surrogate pairs are combined, any other surrogate
    becomes U+FFFD. *)
Fixpoint utf16_Decode (s : list Z) : list Z :=
  match s with
  | [] => []
  | r :: tl =>
      if (r <? 55296) || (57344 <=? r) then r :: utf16_Decode tl
      else
        match tl with
        | r2 :: tl' =>
            if (r <? 56320) && (56320 <=? r2) && (r2 <? 57344)
            then (Z.lor (Z.shiftl (r - 55296) 10) (r2 - 56320) + 65536) :: utf16_Decode tl'
            else 65533 :: utf16_Decode tl
        | [] => 65533 :: utf16_Decode tl
        end
  end.

(** [utf8.EncodeRune] for the runes [utf16.Decode] produces (never a
    surrogate, never above U+10FFFF). *)
Definition utf8_EncodeRune (r : Z) : list Z :=
  if r <? 128 then [r]
  else if r <? 2048 then
    [Z.lor 192 (Z.shiftr r 6); Z.lor 128 (Z.land r 63)]
  else if r <? 65536 then
    [Z.lor 224 (Z.shiftr r 12); Z.lor 128 (Z.land (Z.shiftr r 6) 63);
     Z.lor 128 (Z.land r 63)]
  else
    [Z.lor 240 (Z.shiftr r 18); Z.lor 128 (Z.land (Z.shiftr r 12) 63);
     Z.lor 128 (Z.land (Z.shiftr r 6) 63); Z.lor 128 (Z.land r 63)].

(** [string(runes)]. *)
Definition string_of_runes (rs : list Z) : list Z := flat_map utf8_EncodeRune rs.

(** ** The AXML document and the chunk loop of [ReadAXML] *)

Record StringsMeta := {
  Nstrings : Z;
  StyleOffsetCount : Z;
  Flags : Z;
  StringDataOffset : Z;
  Stylesoffset : Z;
  DataOffset : list Z
}.

Definition empty_meta : StringsMeta :=
  {| Nstrings := 0; StyleOffsetCount := 0; Flags := 0; StringDataOffset := 0;
     Stylesoffset := 0; DataOffset := [] |}.

Record AXML := {
  Header : Z;
  size : Z;
  stringsmeta : StringsMeta;
  Strings : list (list Z)
}.

Definition empty_axml : AXML :=
  {| Header := 0; size := 0; stringsmeta := empty_meta; Strings := [] |}.

(** The errors [ReadAXML] returns. *)
Inductive axml_error :=
| ErrWrongHeader                      (* "AXML file has wrong header" *)
| ErrUnknownChunk (blocktype : Z)     (* "Unkown chunk type: %X" *)
| ErrSkipBlock                        (* "Error: Expected block 0xFFFFFFFF" *)
| ErrFlag (flag at_ : Z).             (* "Expected flag 0x00140014, found %08X at %08X" *)

(** How a call of [ReadAXML] ends: it returns [(axml, err)], or the Go
    runtime panics on [axml.Strings[nameIdx]] with an index out of range
    (index, length). *)
Inductive outcome :=
| Returned (a : AXML) (err : option axml_error)
| PanicIndexOutOfRange (index len : Z).

(** The variables live across loop iterations: [offset], [blocktype],
    [size] (declared once, before the loop), the [axml] value and the
    reader. *)
Record loop_state {R : Type} := {
  ls_offset : Z;
  ls_blocktype : Z;
  ls_size : Z;
  ls_axml : AXML;
  ls_reader : R
}.
Arguments loop_state R : clear implicits.

Section ReadAXML.
Context {R : Type} `{ReadSeeker R}.

Definition set_meta (a : AXML) (m : StringsMeta) : AXML :=
  {| Header := a.(Header); size := a.(size); stringsmeta := m; Strings := a.(Strings) |}.
Definition set_strings (a : AXML) (ss : list (list Z)) : AXML :=
  {| Header := a.(Header); size := a.(size); stringsmeta := a.(stringsmeta); Strings := ss |}.

(** [for i := 0; i < Nstrings; i++ { var offset uint32; binary.Read(&offset);
    DataOffset = append(DataOffset, offset) }] *)
Fixpoint read_data_offsets (n : nat) (r : R) : list Z * R :=
  match n with
  | O => ([], r)
  | S n' =>
      let (o, r) := read_u32_into 0 r in
      let (os, r) := read_data_offsets n' r in (o :: os, r)
  end.

(** [binary.Read(reader, LE, &stringbytes)] with [stringbytes] a fresh
    [[]uint16] of length [n]: all [2n] bytes or nothing (zeros stay). *)
Definition read_u16_slice (n : nat) (r : R) : list Z * R :=
  match read_full (2 * n) r with
  | (Ok bs, r') => (le16s bs, r')
  | (Err _, r') => (repeat 0 n, r')
  end.

(** The UTF-16LE loop, from iteration [i] of [nstrings]: each string is
    a [uint16] length, that many code units, and, but for the last one,
    [reader.Seek(2, 1)] over the terminating NUL. *)
Fixpoint read_utf16_strings (fuel : nat) (i nstrings : Z) (r : R)
  : list (list Z) * R :=
  match fuel with
  | O => ([], r)
  | S fuel' =>
      let (sz, r) := read_u16_into 0 r in
      let (units, r) := read_u16_slice (Z.to_nat sz) r in
      let s := string_of_runes (utf16_Decode units) in
      let r := if negb (i =? wrap32 (nstrings - 1)) then seek 2 1 r else r in
      let (ss, r) := read_utf16_strings fuel' (i + 1) nstrings r in
      (s :: ss, r)
  end.

(** The [CHUNK_STRINGS] case. The header fields are read into the
    [stringsmeta] fields themselves, so a failed read keeps their old
    values. In the UTF-8 branch [binary.Read(reader, LE, &s)] with
    [s string] is refused by [binary.Read] ("invalid type *string")
    before anything is read: nothing happens. *)
Definition read_strings_chunk (a : AXML) (r : R) : AXML * R :=
  let m := a.(stringsmeta) in
  let (ns, r) := read_u32_into m.(Nstrings) r in
  let (sc, r) := read_u32_into m.(StyleOffsetCount) r in
  let (fl, r) := read_u32_into m.(Flags) r in
  let (sdo, r) := read_u32_into m.(StringDataOffset) r in
  let (so, r) := read_u32_into m.(Stylesoffset) r in
  let (offs, r) := read_data_offsets (Z.to_nat ns) r in
  let m' := {| Nstrings := ns; StyleOffsetCount := sc; Flags := fl;
               StringDataOffset := sdo; Stylesoffset := so;
               DataOffset := m.(DataOffset) ++ offs |} in
  let a := set_meta a m' in
  if negb (Z.land fl UTF8_FLAG =? 0) then (a, r)
  else
    let (ss, r) := read_utf16_strings (Z.to_nat ns) 0 ns r in
    (set_strings a (a.(Strings) ++ ss), r).

(** The [CHUNK_XML_START_TAG] case, for the chunk at [offset]. The read
    into [attributeCount] (a [uint], not a fixed-size type) is refused by
    [binary.Read] and reads nothing. The [fmt.Printf] argument
    [axml.Strings[nameIdx]] is the one access into the string table. *)
Definition read_start_tag (offset : Z) (a : AXML) (r : R)
  : option outcome * R :=
  let (lineNumber, r) := read_u32_into 0 r in
  let (skip, r) := read_u32_into 0 r in
  if negb (skip =? SKIP_BLOCK) then (Some (Returned a (Some ErrSkipBlock)), r)
  else
    let (nsIdx, r) := read_u32_into 0 r in
    let (nameIdx, r) := read_u32_into 0 r in
    let (flag, r) := read_u32_into 0 r in
    if negb (flag =? START_TAG_FLAG) then
      (Some (Returned a (Some (ErrFlag flag (wrap32 (offset + 4 * 6))))), r)
    else
      if Z.of_nat (length a.(Strings)) <=? nameIdx
      then (Some (PanicIndexOutOfRange nameIdx (Z.of_nat (length a.(Strings)))), r)
      else (None, r).

(** The body of the [switch blocktype]: either the function returns
    (or panics), or the loop goes on with the new [axml] and reader. *)
Definition dispatch (blocktype offset : Z) (a : AXML) (r : R)
  : (outcome + AXML) * R :=
  if blocktype =? CHUNK_RESOURCEIDS then (inr a, r)
  else if blocktype =? CHUNK_STRINGS then
    let (a, r) := read_strings_chunk a r in (inr a, r)
  else if blocktype =? CHUNK_XML_END_NAMESPACE then (inr a, r)
  else if blocktype =? CHUNK_XML_END_TAG then (inr a, r)
  else if blocktype =? CHUNK_XML_START_NAMESPACE then (inr a, r)
  else if blocktype =? CHUNK_XML_START_TAG then
    match read_start_tag offset a r with
    | (Some o, r) => (inl o, r)
    | (None, r) => (inr a, r)
    end
  else if blocktype =? CHUNK_XML_TEXT then (inr a, r)
  else (inl (Returned a (Some (ErrUnknownChunk blocktype))), r).

Inductive step_result :=
| Continue (st : loop_state R)
| Stop (o : outcome).

(** One iteration of the loop body: read [blocktype] and [size], run the
    switch, then [offset += size; reader.Seek(int64(offset), 0)]. *)
Definition loop_step (st : loop_state R) : step_result :=
  let (bt, r) := read_u32_into st.(ls_blocktype) st.(ls_reader) in
  let (sz, r) := read_u32_into st.(ls_size) r in
  match dispatch bt st.(ls_offset) st.(ls_axml) r with
  | (inl o, _) => Stop o
  | (inr a, r) =>
      let off := wrap32 (st.(ls_offset) + sz) in
      Continue {| ls_offset := off; ls_blocktype := bt; ls_size := sz;
                  ls_axml := a; ls_reader := seek off 0 r |}
  end.

(** [for offset < axml.size { ... }] run for at most [fuel] iterations;
    [None] when the fuel runs out before the function returns. *)
Fixpoint run_loop (fuel : nat) (st : loop_state R) : option outcome :=
  match fuel with
  | O => None
  | S fuel' =>
      if st.(ls_offset) <? st.(ls_axml).(size) then
        match loop_step st with
        | Continue st' => run_loop fuel' st'
        | Stop o => Some o
        end
      else Some (Returned st.(ls_axml) None)
  end.

(** The code before the loop: the header check, the file size and the
    initial loop state ([offset = 8], [blocktype = size = 0]). *)
Definition ReadAXML_start (reader : R) : outcome + loop_state R :=
  let (h, reader) := read_u32_into 0 reader in
  let a := {| Header := h; size := 0; stringsmeta := empty_meta; Strings := [] |} in
  if negb (h =? CHUNK_AXML_FILE) then inl (Returned a (Some ErrWrongHeader))
  else
    let (sz, reader) := read_u32_into 0 reader in
    let a := {| Header := h; size := sz; stringsmeta := empty_meta; Strings := [] |} in
    inr {| ls_offset := 8; ls_blocktype := 0; ls_size := 0; ls_axml := a;
           ls_reader := reader |}.

(** [func ReadAXML(reader io.ReadSeeker) (AXML, error)], with at most
    [fuel] loop iterations. *)
Definition ReadAXML (fuel : nat) (reader : R) : option outcome :=
  match ReadAXML_start reader with
  | inl o => Some o
  | inr st => run_loop fuel st
  end.

(** The loop states a call of [ReadAXML] on [r0] goes through. *)
Inductive reaches (r0 : R) : loop_state R -> Prop :=
| reaches_start st :
    ReadAXML_start r0 = inr st -> reaches r0 st
| reaches_step st st' :
    reaches r0 st ->
    st.(ls_offset) < st.(ls_axml).(size) ->
    loop_step st = Continue st' ->
    reaches r0 st'.

(** The call returns (or panics) within some number of iterations. *)
Definition terminates (r0 : R) : Prop :=
  exists fuel o, ReadAXML fuel r0 = Some o.
End ReadAXML.
Arguments step_result R : clear implicits.

(** ** Helpers for the statements and concrete inputs *)

(** The 32-bit word at byte position [p] of [s]. *)
Definition word_at (s : list Z) (p : Z) : Z := le32 (skipn (Z.to_nat p) s).

(** The zero value [ResourceIdsBlock{}]. *)
Definition rid_zero : ResourceIdsBlock :=
  {| Type_ := 0; Size := 0; Offset := 0; Ids := [] |}.

(** A block whose stored [Size] (8) is stale: it has one id. *)
Definition rid_stale : ResourceIdsBlock :=
  {| Type_ := CHUNK_RESOURCEIDS; Size := 8; Offset := 0; Ids := [1] |}.

(** A consistent block: one id, [Size = 8 + 4*1]. *)
Definition rid_one : ResourceIdsBlock :=
  {| Type_ := CHUNK_RESOURCEIDS; Size := 12; Offset := 0; Ids := [1] |}.

(** The reader after [i] [uint32] reads from [r]. *)
Fixpoint nth_reader {R} `{ReadSeeker R} (i : nat) (r : R) : R :=
  match i with
  | O => r
  | S i' => nth_reader i' (snd (read_u32 r))
  end.

(** The chunk types the [switch] of [ReadAXML] has a case for. *)
Definition is_chunk_type (t : Z) : bool :=
  existsb (Z.eqb t)
    [CHUNK_RESOURCEIDS; CHUNK_STRINGS; CHUNK_XML_END_NAMESPACE; CHUNK_XML_END_TAG;
     CHUNK_XML_START_NAMESPACE; CHUNK_XML_START_TAG; CHUNK_XML_TEXT].

(** A file of 16 bytes: the file header, then a resource-id chunk whose
    declared size is 0. *)
Definition doc_zero_chunk : list Z :=
  put_u32 CHUNK_AXML_FILE ++ put_u32 16 ++ put_u32 CHUNK_RESOURCEIDS ++ put_u32 0.

(** The loop state of [ReadAXML] on [doc_zero_chunk] after the first
    iteration; the loop comes back to it forever. *)
Definition zero_chunk_state : loop_state BytesReader :=
  {| ls_offset := 8; ls_blocktype := CHUNK_RESOURCEIDS; ls_size := 0;
     ls_axml := {| Header := CHUNK_AXML_FILE; size := 16; stringsmeta := empty_meta;
                   Strings := [] |};
     ls_reader := {| rd_s := doc_zero_chunk; rd_i := 8 |} |}.

(** A string-pool chunk holding the one string "a": [Nstrings = 1], no
    styles, the given flags, string data at chunk offset 32, one string
    offset (0), then the string data [data]. *)
Definition strings_chunk (flags : Z) (data : list Z) : list Z :=
  put_u32 CHUNK_STRINGS ++ put_u32 (32 + Z.of_nat (length data)) ++
  put_u32 1 ++ put_u32 0 ++ put_u32 flags ++ put_u32 32 ++ put_u32 0 ++
  put_u32 0 ++ data.

(** UTF-8 pool: lengths 1 (UTF-16 units) and 1 (bytes), 'a', NUL. *)
Definition pool_utf8 : list Z := strings_chunk UTF8_FLAG [1; 1; 97; 0].
(** UTF-16LE pool: length 1, 'a', NUL, two bytes of padding. *)
Definition pool_utf16 : list Z := strings_chunk 0 [1; 0; 97; 0; 0; 0; 0; 0].

Definition axml_file (chunks : list Z) : list Z :=
  put_u32 CHUNK_AXML_FILE ++ put_u32 (8 + Z.of_nat (length chunks)) ++ chunks.

Definition doc_utf8 : list Z := axml_file pool_utf8.
Definition doc_utf16 : list Z := axml_file pool_utf16.

(** A tag-start chunk (36 bytes): line 1, the skip word [skip], no
    namespace, name index [name], the flag word [flag], no attributes. *)
Definition start_tag_chunk (skip name flag : Z) : list Z :=
  put_u32 CHUNK_XML_START_TAG ++ put_u32 36 ++ put_u32 1 ++ put_u32 skip ++
  put_u32 SKIP_BLOCK ++ put_u32 name ++ put_u32 flag ++ put_u32 0 ++ put_u32 0.

(** The UTF-16 pool with one string, then a tag start naming string 5. *)
Definition doc_bad_name : list Z :=
  axml_file (pool_utf16 ++ start_tag_chunk SKIP_BLOCK 5 START_TAG_FLAG).

(** A tag start whose flag word is [0x00140013]. *)
Definition doc_bad_flag : list Z :=
  axml_file (start_tag_chunk SKIP_BLOCK 0 1310739).

(** A chunk of type [0x12345678]. *)
Definition doc_unknown_chunk : list Z :=
  axml_file (put_u32 305419896 ++ put_u32 8).

(** A tag start whose sentinel word is 0 instead of [0xFFFFFFFF]. *)
Definition doc_bad_skip : list Z :=
  axml_file (start_tag_chunk 0 0 START_TAG_FLAG).

(** * Proofs *)

(** ** Little-endian words *)

Lemma lor_disjoint_add (a b k : Z) :
  0 <= k -> 0 <= a < 2 ^ k -> Z.lor a (b * 2 ^ k) = a + b * 2 ^ k.
Proof.
  intros Hk Ha.
  assert (Hl : Z.land a (b * 2 ^ k) = 0).
  { rewrite <- Z.shiftl_mul_pow2 by lia.
    apply Z.bits_inj'; intros n Hn.
    rewrite Z.land_spec, Z.bits_0.
    destruct (Z.lt_ge_cases n k) as [Hlt | Hge].
    - rewrite Z.shiftl_spec_low by lia. apply andb_false_r.
    - rewrite <- (Z.mod_small a (2 ^ k)) by lia.
      rewrite Z.mod_pow2_bits_high by lia. reflexivity. }
  rewrite Z.add_nocarry_lxor by exact Hl.
  rewrite Z.lxor_lor by exact Hl. reflexivity.
Qed.

(** For four bytes, the or of the shifted bytes is their weighted sum. *)
Lemma le32_bytes (b0 b1 b2 b3 : Z) (rest : list Z) :
  is_byte b0 -> is_byte b1 -> is_byte b2 -> is_byte b3 ->
  le32 (b0 :: b1 :: b2 :: b3 :: rest) = b0 + b1 * 2 ^ 8 + b2 * 2 ^ 16 + b3 * 2 ^ 24.
Proof.
  unfold is_byte; intros H0 H1 H2 H3. cbn [le32].
  rewrite !Z.shiftl_mul_pow2 by lia.
  rewrite (lor_disjoint_add (b2 * 2 ^ 16) b3 24) by lia.
  replace (b2 * 2 ^ 16 + b3 * 2 ^ 24) with ((b2 + b3 * 2 ^ 8) * 2 ^ 16) by lia.
  rewrite (lor_disjoint_add (b1 * 2 ^ 8) (b2 + b3 * 2 ^ 8) 16) by lia.
  replace (b1 * 2 ^ 8 + (b2 + b3 * 2 ^ 8) * 2 ^ 16)
    with ((b1 + b2 * 2 ^ 8 + b3 * 2 ^ 16) * 2 ^ 8) by lia.
  rewrite (lor_disjoint_add b0 (b1 + b2 * 2 ^ 8 + b3 * 2 ^ 16) 8) by lia.
  lia.
Qed.

Lemma land_255 (x : Z) : Z.land x 255 = x mod 256.
Proof. change 255 with (Z.ones 8). rewrite Z.land_ones by lia. reflexivity. Qed.

Lemma put_u32_bytes (v : Z) : Forall is_byte (put_u32 v).
Proof.
  unfold put_u32, is_byte. rewrite !land_255.
  repeat constructor; apply Z.mod_pos_bound; lia.
Qed.

(** [Uint32] undoes [PutUint32] on a [uint32]. *)
Lemma le32_put_u32 (v : Z) (rest : list Z) :
  is_u32 v -> le32 (put_u32 v ++ rest) = v.
Proof.
  unfold is_u32; intros Hv.
  assert (B : forall x, is_byte (Z.land x 255))
    by (intros x; unfold is_byte; rewrite land_255; apply Z.mod_pos_bound; lia).
  unfold put_u32. cbn [app].
  rewrite le32_bytes by apply B.
  rewrite !land_255, !Z.shiftr_div_pow2 by lia.
  change (2 ^ 16) with (2 ^ 8 * 2 ^ 8). change (2 ^ 24) with (2 ^ 8 * 2 ^ 8 * 2 ^ 8).
  rewrite <- !Z.div_div by lia.
  change (2 ^ 8) with 256.
  assert (Hq3 : v / 256 / 256 / 256 < 256).
  { rewrite !Z.div_div by lia. apply Z.div_lt_upper_bound; lia. }
  assert (Hq3' : 0 <= v / 256 / 256 / 256) by (apply Z.div_pos; [apply Z.div_pos; [apply Z.div_pos |] |]; lia).
  rewrite (Z.mod_small (v / 256 / 256 / 256)) by lia.
  pose proof (Z.div_mod v 256 ltac:(lia)) as E0.
  pose proof (Z.div_mod (v / 256) 256 ltac:(lia)) as E1.
  pose proof (Z.div_mod (v / 256 / 256) 256 ltac:(lia)) as E2.
  remember (v / 256 / 256 / 256) as q3. remember (v / 256 / 256) as q2.
  remember (v / 256) as q1.
  remember (v mod 256) as r0. remember (q1 mod 256) as r1. remember (q2 mod 256) as r2.
  clear - E0 E1 E2. lia.
Qed.

Lemma le32_firstn (l : list Z) : le32 (firstn 4 l) = le32 l.
Proof. destruct l as [| ? [| ? [| ? [| ? ?]]]]; reflexivity. Qed.

(** The ids written one after the other decode back, in order. *)
Lemma le32s_flat_map (ids post : list Z) :
  Forall is_u32 ids -> le32s (length ids) (flat_map put_u32 ids ++ post) = ids.
Proof.
  induction 1 as [| x ids Hx _ IH]; [reflexivity |].
  cbn [length le32s flat_map]. rewrite <- app_assoc.
  rewrite le32_put_u32 by exact Hx. f_equal.
  exact IH.
Qed.

Lemma length_flat_map_put_u32 (ids : list Z) :
  length (flat_map put_u32 ids) = (4 * length ids)%nat.
Proof. induction ids; cbn [flat_map length]; [reflexivity |]. rewrite length_app. cbn. lia. Qed.

(** ** Reading from a [bytes.Reader] *)

Lemma bytes_read_full_4 (s : list Z) (p : Z) :
  0 <= p -> p + 4 <= Z.of_nat (length s) ->
  bytes_read_full 4 {| rd_s := s; rd_i := p |} =
  (Ok (firstn 4 (skipn (Z.to_nat p) s)), {| rd_s := s; rd_i := p + 4 |}).
Proof.
  intros Hp Hlen. unfold bytes_read_full; cbn [rd_s rd_i].
  destruct (Z.leb_spec (Z.of_nat (length s)) p); [lia |].
  destruct (Z.leb_spec (p + Z.of_nat 4) (Z.of_nat (length s))); [reflexivity | lia].
Qed.

Lemma read_u32_at (s : list Z) (p : Z) :
  0 <= p -> p + 4 <= Z.of_nat (length s) ->
  read_u32 {| rd_s := s; rd_i := p |} = (Ok (word_at s p), {| rd_s := s; rd_i := p + 4 |}).
Proof.
  intros Hp Hlen. unfold read_u32. cbn [read_full BytesReader_ReadSeeker].
  rewrite bytes_read_full_4 by assumption. rewrite le32_firstn. reflexivity.
Qed.

Lemma read_u32_into_at (old : Z) (s : list Z) (p : Z) :
  0 <= p -> p + 4 <= Z.of_nat (length s) ->
  read_u32_into old {| rd_s := s; rd_i := p |} = (word_at s p, {| rd_s := s; rd_i := p + 4 |}).
Proof. intros Hp Hlen. unfold read_u32_into. rewrite read_u32_at by assumption. reflexivity. Qed.

(** A read past what is left fails. *)
Lemma read_u32_short (s : list Z) (p : Z) :
  0 <= p -> Z.of_nat (length s) < p + 4 ->
  exists e r', read_u32 {| rd_s := s; rd_i := p |} = (Err e, r').
Proof.
  intros Hp Hlen. unfold read_u32. cbn [read_full BytesReader_ReadSeeker].
  unfold bytes_read_full; cbn [rd_s rd_i Nat.eqb].
  destruct (Z.of_nat (length s) <=? p); [eauto |].
  destruct (Z.leb_spec (p + Z.of_nat 4) (Z.of_nat (length s))); [lia | eauto].
Qed.

(** [UnmarshalBinary]'s id loop on a [bytes.Reader] at position [p]: all
    [n] ids when [4n] bytes are left, a read error otherwise. *)
Lemma unmarshal_ids_bytes (n : nat) (s : list Z) (p : Z) :
  0 <= p ->
  (p + 4 * Z.of_nat n <= Z.of_nat (length s) ->
   unmarshal_ids n {| rd_s := s; rd_i := p |} = (le32s n (skipn (Z.to_nat p) s), None)) /\
  ((0 < n)%nat -> Z.of_nat (length s) < p + 4 * Z.of_nat n ->
   exists ids e, unmarshal_ids n {| rd_s := s; rd_i := p |} = (ids, Some e)).
Proof.
  revert p. induction n as [| n IH]; intros p Hp.
  - split; intros; [reflexivity | lia].
  - destruct (IH (p + 4) ltac:(lia)) as [IHok IHko]. split; intros Hlen.
    + cbn [unmarshal_ids]. rewrite read_u32_at by lia.
      rewrite IHok by lia. cbn [le32s]. rewrite skipn_skipn.
      replace (Z.to_nat (p + 4)) with (4 + Z.to_nat p)%nat by lia. reflexivity.
    + intros Hlen'. cbn [unmarshal_ids].
      destruct (Z.le_gt_cases (p + 4) (Z.of_nat (length s))) as [Hok | Hko].
      * rewrite read_u32_at by lia.
        destruct n as [| n]; [lia |].
        destruct IHko as (ids & e & He); [lia | lia |]. rewrite He. eauto.
      * destruct (read_u32_short s p Hp ltac:(lia)) as (e & r' & He).
        rewrite He. eauto.
Qed.

Lemma length_put_u32 (v : Z) : length (put_u32 v) = 4%nat.
Proof. reflexivity. Qed.

Lemma skipn_put_u32 (v : Z) (l : list Z) : skipn 4 (put_u32 v ++ l) = l.
Proof. reflexivity. Qed.

Lemma CHUNK_RESOURCEIDS_u32 : is_u32 CHUNK_RESOURCEIDS.
Proof. unfold is_u32, CHUNK_RESOURCEIDS. lia. Qed.

Lemma rid_count_of_ids (n : nat) :
  8 + 4 * Z.of_nat n < 2 ^ 32 -> rid_count (8 + 4 * Z.of_nat n) = n.
Proof.
  intros Hn. unfold rid_count, wrap32.
  replace (8 + 4 * Z.of_nat n) with ((2 + Z.of_nat n) * 4) by lia.
  rewrite Z.div_mul by lia. replace (2 + Z.of_nat n - 2) with (Z.of_nat n) by lia.
  rewrite Z.mod_small by lia. apply Nat2Z.id.
Qed.

(** ** The resource-id block codec *)

(** C10: [MarshalBinary] never fails and writes [8 + 4*len(Ids)] bytes:
    the stored [Type] and [Size] words, then the ids in order, each as a
    little-endian [uint32]. *)
Theorem MarshalBinary_layout (b : ResourceIdsBlock) :
  is_u32 b.(Type_) -> is_u32 b.(Size) -> Forall is_u32 b.(Ids) ->
  let '(data, err) := MarshalBinary b in
  err = None /\
  length data = (8 + 4 * length b.(Ids))%nat /\
  le32 data = b.(Type_) /\
  le32 (skipn 4 data) = b.(Size) /\
  le32s (length b.(Ids)) (skipn 8 data) = b.(Ids).
Proof.
  intros HT HS HI. unfold MarshalBinary.
  split; [reflexivity |].
  split; [rewrite !length_app, length_flat_map_put_u32; reflexivity |].
  split; [apply le32_put_u32; exact HT |].
  split; [rewrite skipn_put_u32; apply le32_put_u32; exact HS |].
  change 8%nat with (4 + 4)%nat. rewrite <- skipn_skipn, !skipn_put_u32.
  rewrite <- (app_nil_r (flat_map put_u32 b.(Ids))).
  apply le32s_flat_map; exact HI.
Qed.

(** C3 (counterexample): the size word written for [rid_stale], a block
    with one id and a stored [Size] of 8, is 8, not [8 + 4*1]. *)
Lemma MarshalBinary_stale_size :
  le32 (skipn 4 (fst (MarshalBinary rid_stale))) = 8 /\
  le32 (skipn 4 (fst (MarshalBinary rid_stale))) <> 8 + 4 * Z.of_nat (length rid_stale.(Ids)).
Proof. vm_compute. split; [reflexivity | discriminate]. Qed.

(** C3 (amended): [MarshalBinary] writes the stored [Type] and [Size]
    words verbatim and then the ids; [Size] is not recomputed, so the size
    word is [8 + 4*count] exactly when the stored [Size] already is. *)
Theorem MarshalBinary_size_word_stored (b : ResourceIdsBlock) :
  is_u32 b.(Type_) -> is_u32 b.(Size) -> Forall is_u32 b.(Ids) ->
  let data := fst (MarshalBinary b) in
  le32 data = b.(Type_) /\
  le32 (skipn 4 data) = b.(Size) /\
  (le32 (skipn 4 data) = 8 + 4 * Z.of_nat (length b.(Ids)) <->
   b.(Size) = 8 + 4 * Z.of_nat (length b.(Ids))) /\
  le32s (length b.(Ids)) (skipn 8 data) = b.(Ids).
Proof.
  intros HT HS HI data. unfold data, MarshalBinary, fst.
  rewrite skipn_put_u32, (le32_put_u32 b.(Size)) by exact HS.
  split; [apply le32_put_u32; exact HT |].
  split; [reflexivity |].
  split; [reflexivity |].
  change 8%nat with (4 + 4)%nat. rewrite <- skipn_skipn, !skipn_put_u32.
  rewrite <- (app_nil_r (flat_map put_u32 b.(Ids))).
  apply le32s_flat_map; exact HI.
Qed.

(** C1 (counterexample): marshalling [rid_stale] and unmarshalling the
    bytes into a zero block loses its id. *)
Lemma UnmarshalBinary_MarshalBinary_stale :
  UnmarshalBinary rid_zero (fst (MarshalBinary rid_stale)) =
  ({| Type_ := CHUNK_RESOURCEIDS; Size := 8; Offset := 0; Ids := [] |}, None) /\
  fst (UnmarshalBinary rid_zero (fst (MarshalBinary rid_stale))) <> rid_stale.
Proof. vm_compute. split; [reflexivity | discriminate]. Qed.

Lemma unmarshal_ids_ok_length {R} `{ReadSeeker R} (n : nat) (r : R) (ids : list Z) :
  unmarshal_ids n r = (ids, None) -> length ids = n.
Proof.
  revert r ids. induction n as [| n IH]; intros r ids Hu; cbn [unmarshal_ids] in Hu.
  - injection Hu as <-. reflexivity.
  - destruct (read_u32 r) as [[v | e] r']; [| discriminate].
    destruct (unmarshal_ids n r') as [vs e] eqn:E.
    injection Hu as <- ->. cbn [length]. f_equal. eapply IH; exact E.
Qed.

(** A successful [UnmarshalBinary] leaves a block of type
    [CHUNK_RESOURCEIDS] with [Size/4 - 2] ids. *)
Lemma UnmarshalBinary_ok_shape (recv b : ResourceIdsBlock) (data : list Z) :
  UnmarshalBinary recv data = (b, None) ->
  b.(Type_) = CHUNK_RESOURCEIDS /\ length b.(Ids) = rid_count b.(Size).
Proof.
  unfold UnmarshalBinary. intros H.
  destruct (read_u32 (bytes_NewReader data)) as [[t | e] r1]; [| discriminate].
  destruct (negb (t =? CHUNK_RESOURCEIDS)) eqn:Et; [discriminate |].
  destruct (read_u32 r1) as [[sz | e] r2]; [| discriminate].
  destruct (unmarshal_ids (rid_count sz) r2) as [ids [e |]] eqn:Ei; [discriminate |].
  injection H as <-. unfold with_ids, with_size, with_type; cbn [Type_ Size Ids].
  apply negb_false_iff, Z.eqb_eq in Et.
  split; [exact Et | eapply unmarshal_ids_ok_length; exact Ei].
Qed.

(** C1 (amended): for a block whose [Size] and ids fit in 32 bits,
    unmarshalling the marshalled bytes into any receiver succeeds and
    restores [Type], [Size] and [Ids] exactly when [Type] is
    [CHUNK_RESOURCEIDS] and [(Size/4 - 2) mod 2^32 = len(Ids)] (for example
    [Size = 8 + 4*len(Ids)], or [Size = 13] with one id); [Offset] is not
    encoded and keeps the receiver's value. *)
Theorem UnmarshalBinary_MarshalBinary (b recv : ResourceIdsBlock) :
  is_u32 b.(Size) -> Forall is_u32 b.(Ids) ->
  UnmarshalBinary recv (fst (MarshalBinary b)) =
  ({| Type_ := b.(Type_); Size := b.(Size); Offset := recv.(Offset); Ids := b.(Ids) |}, None) <->
  b.(Type_) = CHUNK_RESOURCEIDS /\ rid_count b.(Size) = length b.(Ids).
Proof.
  intros HSu HI. split.
  { intros Heq. apply UnmarshalBinary_ok_shape in Heq. cbn [Type_ Size Ids] in Heq.
    destruct Heq as [HT HL]. split; [exact HT | symmetry; exact HL]. }
  intros [HT HS].
  assert (Hlen : Z.of_nat (length (fst (MarshalBinary b))) = 8 + 4 * Z.of_nat (length b.(Ids))).
  { unfold MarshalBinary, fst. rewrite !length_app, length_flat_map_put_u32, !length_put_u32. lia. }
  set (n := length b.(Ids)) in *.
  unfold UnmarshalBinary, bytes_NewReader.
  rewrite read_u32_at by lia. replace (0 + 4) with 4 by reflexivity.
  replace (word_at (fst (MarshalBinary b)) 0) with CHUNK_RESOURCEIDS
    by (unfold word_at, MarshalBinary, fst; cbn [skipn Z.to_nat];
        rewrite le32_put_u32; [congruence | rewrite HT; exact CHUNK_RESOURCEIDS_u32]).
  rewrite Z.eqb_refl. cbn [negb].
  rewrite read_u32_at by lia. replace (4 + 4) with 8 by reflexivity.
  replace (word_at (fst (MarshalBinary b)) 4) with b.(Size)
    by (unfold word_at, MarshalBinary, fst; cbn [Z.to_nat Pos.to_nat];
        rewrite skipn_put_u32, le32_put_u32 by exact HSu; reflexivity).
  rewrite HS.
  destruct (unmarshal_ids_bytes n (fst (MarshalBinary b)) 8 ltac:(lia)) as [Hok _].
  rewrite Hok by lia.
  cbn [option_map].
  replace (le32s n (skipn (Z.to_nat 8) (fst (MarshalBinary b)))) with b.(Ids).
  - unfold with_ids, with_size, with_type; cbn. rewrite HT. reflexivity.
  - unfold MarshalBinary, fst. change (Z.to_nat 8) with (4 + 4)%nat.
    rewrite <- skipn_skipn, !skipn_put_u32.
    rewrite <- (app_nil_r (flat_map put_u32 b.(Ids))).
    symmetry. apply le32s_flat_map; exact HI.
Qed.

Lemma read_u32_into_split {R} `{ReadSeeker R} (old : Z) (r : R) :
  read_u32_into old r =
  (match fst (read_u32 r) with Ok v => v | Err _ => old end, snd (read_u32 r)).
Proof. unfold read_u32_into. destruct (read_u32 r) as [[v | e] r']; reflexivity. Qed.

(** The id loop of [ReadResourceIdsBlock] fills slot [i] with the [i]-th
    read, or leaves it zero when that read fails. *)
Lemma read_ids_slots {R} `{ReadSeeker R} (n : nat) (r : R) :
  length (fst (read_ids n r)) = n /\
  forall i, (i < n)%nat ->
    nth i (fst (read_ids n r)) 0 =
    match fst (read_u32 (nth_reader i r)) with Ok v => v | Err _ => 0 end.
Proof.
  revert r. induction n as [| n IH]; intros r.
  - split; [reflexivity | intros i Hi; lia].
  - cbn [read_ids]. rewrite read_u32_into_split.
    destruct (IH (snd (read_u32 r))) as [IHl IHn].
    destruct (read_ids n (snd (read_u32 r))) as [vs r''] eqn:E. cbn [fst] in *.
    split; [cbn; rewrite IHl; reflexivity |].
    intros [| i] Hi; [reflexivity |].
    cbn [nth nth_reader]. apply IHn. lia.
Qed.

(** C4 (counterexample): a resource-id chunk with [Size = 13] is accepted
    by [UnmarshalBinary], which reads [13/4 - 2 = 1] id; likewise
    [ReadResourceIdsBlock] returns a nil error for it. *)
Lemma UnmarshalBinary_size_13 :
  UnmarshalBinary rid_zero (put_u32 CHUNK_RESOURCEIDS ++ put_u32 13 ++ put_u32 7) =
  ({| Type_ := CHUNK_RESOURCEIDS; Size := 13; Offset := 0; Ids := [7] |}, None) /\
  ReadResourceIdsBlock (bytes_NewReader (put_u32 7)) 13 0 =
  ({| Type_ := CHUNK_RESOURCEIDS; Size := 13; Offset := 0; Ids := [7] |}, None,
   {| rd_s := put_u32 7; rd_i := 4 |}).
Proof. vm_compute. split; reflexivity. Qed.

(** C4 (amended): [UnmarshalBinary] does not validate the declared size.
    On a chunk with type [CHUNK_RESOURCEIDS] and size [sz] it reads
    [n = (sz/4 - 2) mod 2^32] ids ([sz/4] rounded down): it succeeds with
    the first [n] little-endian words of the rest of the data when [4n]
    bytes are there, and fails with a read error otherwise.
    [ReadResourceIdsBlock] does not validate the size either: for any
    reader and offset it returns a nil error and a block of [CHUNK_RESOURCEIDS]
    with [Size = sz] and [n] ids. *)
Theorem UnmarshalBinary_no_size_check (recv : ResourceIdsBlock) (sz : Z) (rest : list Z) :
  is_u32 sz ->
  let n := rid_count sz in
  (let '(b, err) := UnmarshalBinary recv (put_u32 CHUNK_RESOURCEIDS ++ put_u32 sz ++ rest) in
  b.(Type_) = CHUNK_RESOURCEIDS /\ b.(Size) = sz /\ b.(Offset) = recv.(Offset) /\
  (4 * Z.of_nat n <= Z.of_nat (length rest) -> err = None /\ b.(Ids) = le32s n rest) /\
  ((0 < n)%nat -> Z.of_nat (length rest) < 4 * Z.of_nat n -> exists e, err = Some (RidRead e))) /\
  (forall (R : Type) (RS : ReadSeeker R) (reader : R) (offset : Z),
     let '((rid, err), _) := ReadResourceIdsBlock reader sz offset in
     err = None /\ rid.(Type_) = CHUNK_RESOURCEIDS /\ rid.(Size) = sz /\
     length rid.(Ids) = n).
Proof.
  intros Hsz n. split.
  2:{ intros R RS reader offset. unfold ReadResourceIdsBlock.
      destruct (read_ids_slots n (seek offset 0 reader)) as [Hl _].
      unfold n in *.
      destruct (read_ids (rid_count sz) (seek offset 0 reader)) as [ids r'] eqn:E.
      cbn [fst] in Hl. cbn [Type_ Size Ids]. repeat split; exact Hl. }
  set (data := put_u32 CHUNK_RESOURCEIDS ++ put_u32 sz ++ rest).
  assert (Hlen : Z.of_nat (length data) = 8 + Z.of_nat (length rest))
    by (unfold data; rewrite !length_app, !length_put_u32; lia).
  unfold UnmarshalBinary, bytes_NewReader.
  rewrite read_u32_at by lia. replace (0 + 4) with 4 by reflexivity.
  replace (word_at data 0) with CHUNK_RESOURCEIDS
    by (unfold word_at, data; cbn [skipn Z.to_nat]; symmetry;
        apply le32_put_u32, CHUNK_RESOURCEIDS_u32).
  rewrite Z.eqb_refl. cbn [negb].
  rewrite read_u32_at by lia. replace (4 + 4) with 8 by reflexivity.
  replace (word_at data 4) with sz
    by (unfold word_at, data; cbn [Z.to_nat Pos.to_nat]; rewrite skipn_put_u32;
        symmetry; apply le32_put_u32, Hsz).
  fold n.
  destruct (unmarshal_ids_bytes n data 8 ltac:(lia)) as [Hok Hko].
  assert (Hskip : skipn (Z.to_nat 8) data = rest) by reflexivity.
  destruct (Z.le_gt_cases (4 * Z.of_nat n) (Z.of_nat (length rest))) as [Hle | Hgt].
  - rewrite Hok by lia. rewrite Hskip. cbv beta iota.
    unfold with_ids, with_size, with_type. cbn [Type_ Size Offset Ids option_map].
    split; [reflexivity |]. split; [reflexivity |]. split; [reflexivity |].
    split; [intros _; split; reflexivity | intros _ Hc; lia].
  - destruct Hko as (ids & e & He); [lia | lia |].
    rewrite He. cbv beta iota.
    unfold with_ids, with_size, with_type. cbn [Type_ Size Offset Ids option_map].
    split; [reflexivity |]. split; [reflexivity |]. split; [reflexivity |].
    split; [intros Hc; lia | intros _ _; exists e; reflexivity].
Qed.

(** C9: [ReadResourceIdsBlock] returns a nil error for every reader, size
    and offset. It seeks to [offset] and does [(size/4 - 2) mod 2^32]
    reads whose errors it ignores: slot [i] holds the [i]-th read when it
    succeeds and stays zero when it fails (truncated or unreadable input). *)
Theorem ReadResourceIdsBlock_nil_error {R} `{ReadSeeker R} (reader : R) (size offset : Z) :
  let '((rid, err), _) := ReadResourceIdsBlock reader size offset in
  err = None /\
  rid.(Type_) = CHUNK_RESOURCEIDS /\ rid.(Size) = size /\ rid.(Offset) = offset /\
  length rid.(Ids) = rid_count size /\
  forall i, (i < rid_count size)%nat ->
    nth i rid.(Ids) 0 =
    match fst (read_u32 (nth_reader i (seek offset 0 reader))) with
    | Ok v => v
    | Err _ => 0
    end.
Proof.
  unfold ReadResourceIdsBlock.
  destruct (read_ids_slots (rid_count size) (seek offset 0 reader)) as [Hl Hn].
  destruct (read_ids (rid_count size) (seek offset 0 reader)) as [ids r'] eqn:E.
  cbn [fst] in *. cbn [Type_ Size Offset Ids].
  repeat split; auto.
Qed.

(** Witness: a reader holding one full word and two more bytes, read as a
    table of three ids: no error, and the two unreadable slots are zero. *)
Lemma ReadResourceIdsBlock_nil_error_witness :
  snd (fst (ReadResourceIdsBlock (bytes_NewReader [1; 0; 0; 0; 2; 0]) 20 0)) = None /\
  (fst (fst (ReadResourceIdsBlock (bytes_NewReader [1; 0; 0; 0; 2; 0]) 20 0))).(Ids) = [1; 0; 0].
Proof.
  pose proof (ReadResourceIdsBlock_nil_error (bytes_NewReader [1; 0; 0; 0; 2; 0]) 20 0) as Hth.
  destruct (ReadResourceIdsBlock (bytes_NewReader [1; 0; 0; 0; 2; 0]) 20 0) as [[rid err] r'].
  destruct Hth as (He & _ & _ & _ & Hl & Hn). cbn [fst snd].
  split; [exact He |].
  change (rid_count 20) with 3%nat in Hl, Hn.
  destruct (Ids rid) as [| x0 [| x1 [| x2 [| ? ?]]]] eqn:Ei; cbn in Hl; try discriminate.
  pose proof (Hn 0%nat ltac:(lia)) as H0. pose proof (Hn 1%nat ltac:(lia)) as H1.
  pose proof (Hn 2%nat ltac:(lia)) as H2.
  vm_compute in H0, H1, H2. subst. reflexivity.
Defined.

(** ** The chunk loop of [ReadAXML] *)

(** Sanity checks of the embedding on the concrete files. *)
Example doc_utf16_reads_string :
  ReadAXML 3 (bytes_NewReader doc_utf16) =
  Some (Returned {| Header := CHUNK_AXML_FILE; size := 48;
                    stringsmeta := {| Nstrings := 1; StyleOffsetCount := 0; Flags := 0;
                                      StringDataOffset := 32; Stylesoffset := 0;
                                      DataOffset := [0] |};
                    Strings := [[97]] |} None).
Proof. vm_compute. reflexivity. Qed.

Example doc_bad_flag_error :
  ReadAXML 3 (bytes_NewReader doc_bad_flag) =
  Some (Returned {| Header := CHUNK_AXML_FILE; size := 44; stringsmeta := empty_meta;
                    Strings := [] |} (Some (ErrFlag 1310739 32))).
Proof. vm_compute. reflexivity. Qed.

(** *** A [bytes.Reader] keeps its data *)

Create Rewrite HintDb rd_data.

Lemma bytes_read_full_data (n : nat) (r : BytesReader) :
  rd_s (snd (read_full n r)) = rd_s r.
Proof.
  cbn [read_full BytesReader_ReadSeeker]. unfold bytes_read_full.
  destruct (n =? 0)%nat; [reflexivity |].
  destruct (_ <=? _); [reflexivity |]. destruct (_ <=? _); reflexivity.
Qed.

Lemma bytes_seek_data (o w : Z) (r : BytesReader) : rd_s (seek o w r) = rd_s r.
Proof.
  cbn [seek BytesReader_ReadSeeker]. unfold bytes_seek.
  destruct (w =? 0); [| destruct (w =? 1); [| destruct (w =? 2)]];
    try reflexivity; destruct (_ <? 0); reflexivity.
Qed.

#[local] Hint Rewrite bytes_read_full_data bytes_seek_data : rd_data.

(** Split every [match] (and so every [let (x, r) := ...]) of the goal,
    then turn each equation [f ... r = (_, r')] into [rd_s r = rd_s r']. *)
Ltac split_matches :=
  repeat match goal with
  | |- context [match ?e with _ => _ end] =>
      let E := fresh "E" in destruct e eqn:E
  end.

Ltac data_facts :=
  repeat match goal with
  | E : ?e = (_, ?r1) |- _ =>
      let H := fresh "D" in
      pose proof (f_equal (fun p => rd_s (snd p)) E) as H; cbn [snd] in H;
      autorewrite with rd_data in H; clear E
  end.

Ltac data_solve :=
  split_matches; data_facts; cbn [snd] in *; autorewrite with rd_data; congruence.

Lemma read_u32_data (r : BytesReader) : rd_s (snd (read_u32 r)) = rd_s r.
Proof. unfold read_u32. data_solve. Qed.
#[local] Hint Rewrite read_u32_data : rd_data.

Lemma read_u16_data (r : BytesReader) : rd_s (snd (read_u16 r)) = rd_s r.
Proof. unfold read_u16. data_solve. Qed.
#[local] Hint Rewrite read_u16_data : rd_data.

Lemma read_u32_into_data (old : Z) (r : BytesReader) : rd_s (snd (read_u32_into old r)) = rd_s r.
Proof. unfold read_u32_into. data_solve. Qed.
#[local] Hint Rewrite read_u32_into_data : rd_data.

Lemma read_u16_into_data (old : Z) (r : BytesReader) : rd_s (snd (read_u16_into old r)) = rd_s r.
Proof. unfold read_u16_into. data_solve. Qed.
#[local] Hint Rewrite read_u16_into_data : rd_data.

Lemma read_u16_slice_data (n : nat) (r : BytesReader) : rd_s (snd (read_u16_slice n r)) = rd_s r.
Proof. unfold read_u16_slice. data_solve. Qed.
#[local] Hint Rewrite read_u16_slice_data : rd_data.

Lemma read_data_offsets_data (n : nat) (r : BytesReader) :
  rd_s (snd (read_data_offsets n r)) = rd_s r.
Proof.
  revert r; induction n as [| n IH]; intros r; [reflexivity |].
  cbn [read_data_offsets].
  pose proof (read_u32_into_data 0 r) as H0.
  destruct (read_u32_into 0 r) as [o r1]. cbn [snd] in H0.
  pose proof (IH r1) as H1. destruct (read_data_offsets n r1) as [os r2].
  cbn [snd] in *. congruence.
Qed.
#[local] Hint Rewrite read_data_offsets_data : rd_data.

Lemma read_utf16_strings_data (fuel : nat) (i ns : Z) (r : BytesReader) :
  rd_s (snd (read_utf16_strings fuel i ns r)) = rd_s r.
Proof.
  revert i r; induction fuel as [| fuel IH]; intros i r; [reflexivity |].
  cbn [read_utf16_strings].
  pose proof (read_u16_into_data 0 r) as H0.
  destruct (read_u16_into 0 r) as [sz r1]. cbn [snd] in H0.
  pose proof (read_u16_slice_data (Z.to_nat sz) r1) as H1.
  destruct (read_u16_slice (Z.to_nat sz) r1) as [units r2]. cbn [snd] in H1.
  set (r3 := if negb (i =? wrap32 (ns - 1)) then seek 2 1 r2 else r2).
  assert (H3 : rd_s r3 = rd_s r2)
    by (unfold r3; destruct (negb _); [apply bytes_seek_data | reflexivity]).
  pose proof (IH (i + 1) r3) as H4.
  destruct (read_utf16_strings fuel (i + 1) ns r3) as [ss r4].
  cbn [snd] in *. congruence.
Qed.
#[local] Hint Rewrite read_utf16_strings_data : rd_data.

Lemma read_strings_chunk_data (a : AXML) (r : BytesReader) :
  rd_s (snd (read_strings_chunk a r)) = rd_s r.
Proof. unfold read_strings_chunk. data_solve. Qed.
#[local] Hint Rewrite read_strings_chunk_data : rd_data.

Lemma read_start_tag_data (off : Z) (a : AXML) (r : BytesReader) :
  rd_s (snd (read_start_tag off a r)) = rd_s r.
Proof. unfold read_start_tag. data_solve. Qed.
#[local] Hint Rewrite read_start_tag_data : rd_data.

Lemma dispatch_data (bt off : Z) (a : AXML) (r : BytesReader) :
  rd_s (snd (dispatch bt off a r)) = rd_s r.
Proof. unfold dispatch. data_solve. Qed.
#[local] Hint Rewrite dispatch_data : rd_data.

(** *** Loop invariants *)

Lemma wrap32_range (z : Z) : 0 <= wrap32 z < 2 ^ 32.
Proof. unfold wrap32. apply Z.mod_pos_bound. lia. Qed.

Lemma bytes_seek_start (o : Z) (r : BytesReader) :
  0 <= o -> seek o 0 r = {| rd_s := rd_s r; rd_i := o |}.
Proof.
  intros Ho. cbn [seek BytesReader_ReadSeeker]. unfold bytes_seek. cbn [Z.eqb].
  destruct (Z.ltb_spec o 0); [lia | reflexivity].
Qed.

(** Every iteration ends with [reader.Seek(int64(offset), 0)]. *)
Lemma loop_step_bytes (st st' : loop_state BytesReader) :
  loop_step st = Continue st' ->
  rd_s st'.(ls_reader) = rd_s st.(ls_reader) /\
  0 <= st'.(ls_offset) < 2 ^ 32 /\ rd_i st'.(ls_reader) = st'.(ls_offset).
Proof.
  unfold loop_step.
  pose proof (read_u32_into_data st.(ls_blocktype) st.(ls_reader)) as D1.
  destruct (read_u32_into st.(ls_blocktype) st.(ls_reader)) as [bt r1]. cbn [snd] in D1.
  pose proof (read_u32_into_data st.(ls_size) r1) as D2.
  destruct (read_u32_into st.(ls_size) r1) as [sz r2]. cbn [snd] in D2.
  pose proof (dispatch_data bt st.(ls_offset) st.(ls_axml) r2) as D3.
  destruct (dispatch bt st.(ls_offset) st.(ls_axml) r2) as [[o | a] r3]; cbn [snd] in D3;
    intros H; [discriminate |].
  injection H as <-. cbn [ls_reader ls_offset].
  pose proof (wrap32_range (ls_offset st + sz)).
  rewrite bytes_seek_start by lia. cbn [rd_s rd_i].
  split; [congruence | split; [lia | reflexivity]].
Qed.

(** On a [bytes.Reader] over [data], every loop state that runs an
    iteration has the reader at [offset]. *)
Lemma reaches_bytes (data : list Z) (st : loop_state BytesReader) :
  reaches (bytes_NewReader data) st ->
  rd_s st.(ls_reader) = data /\ 0 <= st.(ls_offset) < 2 ^ 32 /\
  (st.(ls_offset) < st.(ls_axml).(size) -> rd_i st.(ls_reader) = st.(ls_offset)).
Proof.
  induction 1 as [st Hst | st st' _ IH _ Hstep].
  - unfold ReadAXML_start, bytes_NewReader in Hst.
    destruct (Z.le_gt_cases 8 (Z.of_nat (length data))) as [Hl | Hl].
    + rewrite read_u32_into_at in Hst by lia.
      destruct (negb _); [discriminate |].
      rewrite read_u32_into_at in Hst by lia.
      injection Hst as <-. cbn. split; [reflexivity | split; [lia | reflexivity]].
    + destruct (Z.le_gt_cases 4 (Z.of_nat (length data))) as [Hl4 | Hl4].
      * rewrite read_u32_into_at in Hst by lia.
        destruct (negb _); [discriminate |].
        unfold read_u32_into at 1 in Hst.
        destruct (read_u32_short data (0 + 4) ltac:(lia) ltac:(lia)) as (e & r' & He).
        rewrite He in Hst. injection Hst as <-. cbn.
        pose proof (read_u32_data {| rd_s := data; rd_i := 0 + 4 |}) as D.
        rewrite He in D.
        cbn [snd rd_s] in D. split; [exact D | split; [lia | intros; lia]].
      * unfold read_u32_into at 1 in Hst.
        destruct (read_u32_short data 0 ltac:(lia) ltac:(lia)) as (e & r' & He).
        rewrite He in Hst. discriminate.
  - destruct IH as [IHd _].
    destruct (loop_step_bytes st st' Hstep) as (D & Ho & Hi).
    split; [congruence | split; [exact Ho | intros; exact Hi]].
Qed.

(** Once the loop reaches [st], [ReadAXML] goes on as the loop from [st]. *)
Lemma reaches_run {R} `{ReadSeeker R} (r0 : R) (st : loop_state R) :
  reaches r0 st -> exists k, forall fuel, ReadAXML (k + fuel) r0 = run_loop fuel st.
Proof.
  induction 1 as [st Hst | st st' _ IH Hlt Hstep].
  - exists 0%nat. intros fuel. unfold ReadAXML. rewrite Hst. reflexivity.
  - destruct IH as [k Hk]. exists (S k). intros fuel.
    replace (S k + fuel)%nat with (k + S fuel)%nat by lia.
    rewrite Hk. cbn [run_loop].
    destruct (Z.ltb_spec st.(ls_offset) st.(ls_axml).(size)); [| lia].
    rewrite Hstep. reflexivity.
Qed.

Lemma dispatch_unknown {R} `{ReadSeeker R} (bt off : Z) (a : AXML) (r : R) :
  is_chunk_type bt = false ->
  dispatch bt off a r = (inl (Returned a (Some (ErrUnknownChunk bt))), r).
Proof.
  unfold is_chunk_type, dispatch. cbn [existsb].
  destruct (bt =? CHUNK_RESOURCEIDS); [discriminate |].
  destruct (bt =? CHUNK_STRINGS); [discriminate |].
  destruct (bt =? CHUNK_XML_END_NAMESPACE); [discriminate |].
  destruct (bt =? CHUNK_XML_END_TAG); [discriminate |].
  destruct (bt =? CHUNK_XML_START_NAMESPACE); [discriminate |].
  destruct (bt =? CHUNK_XML_START_TAG); [discriminate |].
  destruct (bt =? CHUNK_XML_TEXT); [discriminate | reflexivity].
Qed.

(** C6: when the loop of [ReadAXML] reads, at a chunk it reaches, a type
    word that is none of the seven chunk types of the [switch], the whole
    call returns the ["Unkown chunk type"] error for it, at once, without
    skipping the chunk. *)
Theorem ReadAXML_unknown_chunk {R} `{ReadSeeker R} (r0 : R) (st : loop_state R) (bt : Z) :
  reaches r0 st ->
  st.(ls_offset) < st.(ls_axml).(size) ->
  fst (read_u32 st.(ls_reader)) = Ok bt ->
  is_chunk_type bt = false ->
  exists n, ReadAXML n r0 = Some (Returned st.(ls_axml) (Some (ErrUnknownChunk bt))).
Proof.
  intros Hr Hlt Hbt Hunk.
  destruct (reaches_run r0 st Hr) as [k Hk].
  exists (k + 1)%nat. rewrite Hk. cbn [run_loop].
  destruct (Z.ltb_spec st.(ls_offset) st.(ls_axml).(size)); [| lia].
  unfold loop_step. rewrite (read_u32_into_split st.(ls_blocktype)), Hbt.
  destruct (read_u32_into st.(ls_size) (snd (read_u32 st.(ls_reader)))) as [sz r2].
  rewrite dispatch_unknown by exact Hunk. reflexivity.
Qed.

(** Witness: [doc_unknown_chunk], whose first chunk has type [0x12345678]. *)
Lemma ReadAXML_unknown_chunk_witness :
  exists n, ReadAXML n (bytes_NewReader doc_unknown_chunk) =
  Some (Returned {| Header := CHUNK_AXML_FILE; size := 16; stringsmeta := empty_meta;
                    Strings := [] |} (Some (ErrUnknownChunk 305419896))).
Proof.
  apply (ReadAXML_unknown_chunk (bytes_NewReader doc_unknown_chunk)
           {| ls_offset := 8; ls_blocktype := 0; ls_size := 0;
              ls_axml := {| Header := CHUNK_AXML_FILE; size := 16; stringsmeta := empty_meta;
                            Strings := [] |};
              ls_reader := {| rd_s := doc_unknown_chunk; rd_i := 8 |} |}).
  - apply reaches_start. vm_compute. reflexivity.
  - vm_compute. reflexivity.
  - vm_compute. reflexivity.
  - vm_compute. reflexivity.
Defined.

Lemma dispatch_start_tag {R} `{ReadSeeker R} (off : Z) (a : AXML) (r : R) :
  dispatch CHUNK_XML_START_TAG off a r =
  match read_start_tag off a r with
  | (Some o, r) => (inl o, r)
  | (None, r) => (inr a, r)
  end.
Proof. reflexivity. Qed.

(** Read one word of a [bytes.Reader] with enough data left, and go on
    with the rest of the [let]s. *)
Ltac read_word := rewrite read_u32_into_at by lia; cbv beta iota.

(** One iteration at a tag-start chunk with the sentinel in place, on a
    [bytes.Reader] positioned at the chunk: the name index (at +20) and
    the flag word (at +24) decide the iteration. *)
Lemma run_start_tag (data : list Z) (off bt0 sz0 : Z) (a : AXML) :
  0 <= off -> off + 28 <= Z.of_nat (length data) -> off < a.(size) ->
  word_at data off = CHUNK_XML_START_TAG ->
  word_at data (off + 12) = SKIP_BLOCK ->
  run_loop 1 {| ls_offset := off; ls_blocktype := bt0; ls_size := sz0; ls_axml := a;
                ls_reader := {| rd_s := data; rd_i := off |} |} =
  if negb (word_at data (off + 24) =? START_TAG_FLAG) then
    Some (Returned a (Some (ErrFlag (word_at data (off + 24)) (wrap32 (off + 24)))))
  else if Z.of_nat (length a.(Strings)) <=? word_at data (off + 20) then
    Some (PanicIndexOutOfRange (word_at data (off + 20)) (Z.of_nat (length a.(Strings))))
  else None.
Proof.
  intros Ho Hlen Hlt Hbt Hskip.
  cbn [run_loop ls_offset ls_axml].
  destruct (Z.ltb_spec off a.(size)); [| lia].
  unfold loop_step. cbn [ls_reader ls_blocktype ls_size ls_offset ls_axml].
  read_word. read_word. rewrite Hbt, dispatch_start_tag. unfold read_start_tag.
  do 5 read_word.
  replace (off + 4 + 4 + 4 + 4 + 4 + 4) with (off + 24) by lia.
  replace (off + 4 + 4 + 4 + 4 + 4) with (off + 20) by lia.
  replace (off + 4 + 4 + 4) with (off + 12) by lia.
  replace (off + 4 * 6) with (off + 24) by lia.
  rewrite Hskip, Z.eqb_refl. cbn [negb]. cbv beta iota.
  destruct (negb (word_at data (off + 24) =? START_TAG_FLAG)); cbv beta iota; [reflexivity |].
  destruct (Z.of_nat (length a.(Strings)) <=? word_at data (off + 20)); reflexivity.
Qed.

(** C5: when the loop reaches a tag-start chunk (sentinel word in place)
    whose flag word, at chunk offset + 24, is not [0x00140014], [ReadAXML]
    returns the flag error, carrying the flag word read and the byte
    offset [offset + 24] of the flag field (for any file the 32-bit size
    and offset fields can address). *)
Theorem ReadAXML_start_tag_bad_flag (data : list Z) (st : loop_state BytesReader) :
  reaches (bytes_NewReader data) st ->
  st.(ls_offset) < st.(ls_axml).(size) ->
  st.(ls_offset) + 28 <= Z.of_nat (length data) <= 2 ^ 32 ->
  word_at data st.(ls_offset) = CHUNK_XML_START_TAG ->
  word_at data (st.(ls_offset) + 12) = SKIP_BLOCK ->
  word_at data (st.(ls_offset) + 24) <> START_TAG_FLAG ->
  exists n, ReadAXML n (bytes_NewReader data) =
  Some (Returned st.(ls_axml)
          (Some (ErrFlag (word_at data (st.(ls_offset) + 24)) (st.(ls_offset) + 24)))).
Proof.
  intros Hr Hlt Hlen Hbt Hskip Hflag.
  destruct (reaches_bytes data st Hr) as (Hd & Ho & Hi). specialize (Hi Hlt).
  destruct (reaches_run _ st Hr) as [k Hk]. exists (k + 1)%nat. rewrite Hk.
  destruct st as [off bt0 sz0 a [s i]]. cbn [ls_offset ls_axml ls_reader rd_s rd_i] in *.
  subst s i.
  rewrite run_start_tag by lia.
  apply Z.eqb_neq in Hflag. rewrite Hflag. cbn [negb].
  unfold wrap32. rewrite Z.mod_small by lia. reflexivity.
Qed.

(** Witness: [doc_bad_flag], a tag start at offset 8 with flag word
    [0x00140013]: the error reports [8 + 24 = 32]. *)
Lemma ReadAXML_start_tag_bad_flag_witness :
  exists n, ReadAXML n (bytes_NewReader doc_bad_flag) =
  Some (Returned {| Header := CHUNK_AXML_FILE; size := 44; stringsmeta := empty_meta;
                    Strings := [] |} (Some (ErrFlag 1310739 32))).
Proof.
  apply (ReadAXML_start_tag_bad_flag doc_bad_flag
           {| ls_offset := 8; ls_blocktype := 0; ls_size := 0;
              ls_axml := {| Header := CHUNK_AXML_FILE; size := 44; stringsmeta := empty_meta;
                            Strings := [] |};
              ls_reader := {| rd_s := doc_bad_flag; rd_i := 8 |} |}).
  - apply reaches_start. vm_compute. reflexivity.
  - vm_compute. reflexivity.
  - vm_compute. split; discriminate.
  - vm_compute. reflexivity.
  - vm_compute. reflexivity.
  - vm_compute. discriminate.
Defined.

(** C2 (counterexample): on [doc_bad_name] (one string in the pool, then
    a tag start naming string 5) [ReadAXML] does not return an error: it
    panics on the index. *)
Lemma ReadAXML_bad_name_panics :
  ReadAXML 3 (bytes_NewReader doc_bad_name) = Some (PanicIndexOutOfRange 5 1) /\
  ~ (exists a e, ReadAXML 3 (bytes_NewReader doc_bad_name) = Some (Returned a (Some e))).
Proof.
  assert (H : ReadAXML 3 (bytes_NewReader doc_bad_name) = Some (PanicIndexOutOfRange 5 1))
    by (vm_compute; reflexivity).
  split; [exact H |]. intros (a & e & He). rewrite H in He. discriminate.
Qed.

(** C2 (amended): the tag-start case checks the sentinel and the flag
    word but not the name index: when the index is not below the number of
    decoded strings, [ReadAXML] panics with Go's index-out-of-range
    runtime error on [axml.Strings[nameIdx]] (no error value is returned,
    and the bounds check of Go stops the access). *)
Theorem ReadAXML_start_tag_name_unchecked (data : list Z) (st : loop_state BytesReader) :
  reaches (bytes_NewReader data) st ->
  st.(ls_offset) < st.(ls_axml).(size) ->
  st.(ls_offset) + 28 <= Z.of_nat (length data) ->
  word_at data st.(ls_offset) = CHUNK_XML_START_TAG ->
  word_at data (st.(ls_offset) + 12) = SKIP_BLOCK ->
  word_at data (st.(ls_offset) + 24) = START_TAG_FLAG ->
  Z.of_nat (length st.(ls_axml).(Strings)) <= word_at data (st.(ls_offset) + 20) ->
  exists n, ReadAXML n (bytes_NewReader data) =
  Some (PanicIndexOutOfRange (word_at data (st.(ls_offset) + 20))
                             (Z.of_nat (length st.(ls_axml).(Strings)))).
Proof.
  intros Hr Hlt Hlen Hbt Hskip Hflag Hname.
  destruct (reaches_bytes data st Hr) as (Hd & Ho & Hi). specialize (Hi Hlt).
  destruct (reaches_run _ st Hr) as [k Hk]. exists (k + 1)%nat. rewrite Hk.
  destruct st as [off bt0 sz0 a [s i]]. cbn [ls_offset ls_axml ls_reader rd_s rd_i] in *.
  subst s i.
  rewrite run_start_tag by lia.
  rewrite Hflag, Z.eqb_refl. cbn [negb].
  destruct (Z.leb_spec (Z.of_nat (length a.(Strings))) (word_at data (off + 20))); [reflexivity | lia].
Qed.

(** Witness: [doc_bad_name], after its string pool (one string), reaches
    the tag start at offset 48 naming string 5. *)
Lemma ReadAXML_start_tag_name_unchecked_witness :
  exists n, ReadAXML n (bytes_NewReader doc_bad_name) = Some (PanicIndexOutOfRange 5 1).
Proof.
  apply (ReadAXML_start_tag_name_unchecked doc_bad_name
           {| ls_offset := 48; ls_blocktype := CHUNK_STRINGS; ls_size := 40;
              ls_axml := {| Header := CHUNK_AXML_FILE; size := 84;
                            stringsmeta := {| Nstrings := 1; StyleOffsetCount := 0; Flags := 0;
                                              StringDataOffset := 32; Stylesoffset := 0;
                                              DataOffset := [0] |};
                            Strings := [[97]] |};
              ls_reader := {| rd_s := doc_bad_name; rd_i := 48 |} |}).
  - apply (reaches_step _
             {| ls_offset := 8; ls_blocktype := 0; ls_size := 0;
                ls_axml := {| Header := CHUNK_AXML_FILE; size := 84; stringsmeta := empty_meta;
                              Strings := [] |};
                ls_reader := {| rd_s := doc_bad_name; rd_i := 8 |} |}).
    + apply reaches_start. vm_compute. reflexivity.
    + vm_compute. reflexivity.
    + vm_compute. reflexivity.
  - vm_compute. reflexivity.
  - vm_compute. discriminate.
  - vm_compute. reflexivity.
  - vm_compute. reflexivity.
  - vm_compute. reflexivity.
  - vm_compute. discriminate.
Defined.

(** ** Termination of the loop *)

(** A loop state that an iteration maps to itself is never left. *)
Lemma run_loop_stuck {R} `{ReadSeeker R} (st : loop_state R) :
  st.(ls_offset) < st.(ls_axml).(size) -> loop_step st = Continue st ->
  forall n, run_loop n st = None.
Proof.
  intros Hlt Hstep n. induction n as [| n IH]; [reflexivity |].
  cbn [run_loop]. destruct (Z.ltb_spec st.(ls_offset) st.(ls_axml).(size)); [| lia].
  rewrite Hstep. exact IH.
Qed.

(** C7 (code bug): [ReadAXML] does not terminate on [doc_zero_chunk]: the
    chunk at offset 8 declares size 0, so [offset += size] leaves the
    offset at 8, the reader is sought back to 8 and the same chunk is read
    again, forever ([offset < axml.size] stays true). *)
Theorem ReadAXML_zero_size_chunk_diverges : ~ terminates (bytes_NewReader doc_zero_chunk).
Proof.
  intros (fuel & o & H). unfold ReadAXML in H.
  replace (ReadAXML_start (bytes_NewReader doc_zero_chunk))
    with (@inr outcome (loop_state BytesReader)
            {| ls_offset := 8; ls_blocktype := 0; ls_size := 0;
               ls_axml := {| Header := CHUNK_AXML_FILE; size := 16; stringsmeta := empty_meta;
                             Strings := [] |};
               ls_reader := {| rd_s := doc_zero_chunk; rd_i := 8 |} |})
    in H by (vm_compute; reflexivity).
  destruct fuel as [| fuel]; [discriminate |].
  cbn [run_loop ls_offset ls_axml size Z.ltb Z.compare] in H.
  match type of H with
  | context [loop_step ?st] =>
      replace (loop_step st) with (Continue zero_chunk_state) in H by (vm_compute; reflexivity)
  end.
  rewrite (run_loop_stuck zero_chunk_state) in H;
    [discriminate | vm_compute; reflexivity | vm_compute; reflexivity].
Qed.

(** ** The UTF-8 string pool *)

(** C8 (code bug): on [doc_utf8], a pool of one UTF-8 string "a",
    [ReadAXML] records [Nstrings = 1] and the string offset but decodes no
    string: [binary.Read] into a [string] reads nothing, and the UTF-8
    branch has no loop over [Nstrings] (the UTF-16 branch, on
    [doc_utf16], decodes "a"; see [doc_utf16_reads_string]). *)
Theorem ReadAXML_utf8_pool_no_strings :
  ReadAXML 3 (bytes_NewReader doc_utf8) =
  Some (Returned {| Header := CHUNK_AXML_FILE; size := 44;
                    stringsmeta := {| Nstrings := 1; StyleOffsetCount := 0; Flags := UTF8_FLAG;
                                      StringDataOffset := 32; Stylesoffset := 0;
                                      DataOffset := [0] |};
                    Strings := [] |} None).
Proof. vm_compute. reflexivity. Qed.

(** ** Witnesses of the resource-id codec theorems *)

Ltac u32_facts :=
  unfold is_u32, rid_one, CHUNK_RESOURCEIDS; cbn [Type_ Size Ids];
  repeat first [constructor | lia].

(** Witness: the layout of [rid_one]. *)
Lemma MarshalBinary_layout_witness :
  let '(data, err) := MarshalBinary rid_one in
  err = None /\
  length data = (8 + 4 * length rid_one.(Ids))%nat /\
  le32 data = rid_one.(Type_) /\
  le32 (skipn 4 data) = rid_one.(Size) /\
  le32s (length rid_one.(Ids)) (skipn 8 data) = rid_one.(Ids).
Proof.
  apply (MarshalBinary_layout rid_one); u32_facts.
Defined.

(** Witness: the header words of [rid_one]'s encoding. *)
Lemma MarshalBinary_size_word_stored_witness :
  let data := fst (MarshalBinary rid_one) in
  le32 data = rid_one.(Type_) /\
  le32 (skipn 4 data) = rid_one.(Size) /\
  (le32 (skipn 4 data) = 8 + 4 * Z.of_nat (length rid_one.(Ids)) <->
   rid_one.(Size) = 8 + 4 * Z.of_nat (length rid_one.(Ids))) /\
  le32s (length rid_one.(Ids)) (skipn 8 data) = rid_one.(Ids).
Proof.
  apply (MarshalBinary_size_word_stored rid_one); u32_facts.
Defined.

(** Witness: [rid_one] (size 12, one id) survives the round trip into
    [rid_stale]. *)
Lemma UnmarshalBinary_MarshalBinary_witness :
  UnmarshalBinary rid_stale (fst (MarshalBinary rid_one)) =
  ({| Type_ := CHUNK_RESOURCEIDS; Size := 12; Offset := 0; Ids := [1] |}, None).
Proof.
  apply (proj2 (UnmarshalBinary_MarshalBinary rid_one rid_stale ltac:(u32_facts) ltac:(u32_facts))).
  split; reflexivity.
Defined.

(** Witness: a chunk of declared size 12 followed by one word, and
    [ReadResourceIdsBlock] over a byte reader at size 13. *)
Lemma UnmarshalBinary_no_size_check_witness :
  let n := rid_count 12 in
  (let '(b, err) := UnmarshalBinary rid_zero (put_u32 CHUNK_RESOURCEIDS ++ put_u32 12 ++ put_u32 7) in
  b.(Type_) = CHUNK_RESOURCEIDS /\ b.(Size) = 12 /\ b.(Offset) = rid_zero.(Offset) /\
  (4 * Z.of_nat n <= Z.of_nat (length (put_u32 7)) -> err = None /\ b.(Ids) = le32s n (put_u32 7)) /\
  ((0 < n)%nat -> Z.of_nat (length (put_u32 7)) < 4 * Z.of_nat n -> exists e, err = Some (RidRead e))) /\
  (forall (R : Type) (RS : ReadSeeker R) (reader : R) (offset : Z),
     let '((rid, err), _) := ReadResourceIdsBlock reader 12 offset in
     err = None /\ rid.(Type_) = CHUNK_RESOURCEIDS /\ rid.(Size) = 12 /\
     length rid.(Ids) = n).
Proof.
  apply (UnmarshalBinary_no_size_check rid_zero 12 (put_u32 7)); u32_facts.
Defined.

(** * Further properties of the code *)

(** ** Helpers: short reads, list slices and the byte codec *)

Lemma read_u32_eof (s : list Z) (p : Z) :
  Z.of_nat (length s) <= p ->
  read_u32 {| rd_s := s; rd_i := p |} = (Err EOF, {| rd_s := s; rd_i := p |}).
Proof.
  intros Hp. unfold read_u32. cbn [read_full BytesReader_ReadSeeker].
  unfold bytes_read_full; cbn [rd_s rd_i Nat.eqb].
  destruct (Z.leb_spec (Z.of_nat (length s)) p); [reflexivity | lia].
Qed.

Lemma read_u32_partial (s : list Z) (p : Z) :
  p < Z.of_nat (length s) < p + 4 ->
  read_u32 {| rd_s := s; rd_i := p |} =
  (Err ErrUnexpectedEOF, {| rd_s := s; rd_i := Z.of_nat (length s) |}).
Proof.
  intros Hp. unfold read_u32. cbn [read_full BytesReader_ReadSeeker].
  unfold bytes_read_full; cbn [rd_s rd_i Nat.eqb].
  destruct (Z.leb_spec (Z.of_nat (length s)) p); [lia |].
  destruct (Z.leb_spec (p + Z.of_nat 4) (Z.of_nat (length s))); [lia | reflexivity].
Qed.

Lemma firstn_plus {A} (a b : nat) (l : list A) :
  firstn (a + b) l = firstn a l ++ firstn b (skipn a l).
Proof.
  revert l. induction a as [| a IH]; intros l; [reflexivity |].
  destruct l as [| x l]; cbn; [now rewrite firstn_nil | now rewrite IH].
Qed.

Lemma Forall_skipn_bytes (n : nat) (l : list Z) :
  Forall is_byte l -> Forall is_byte (skipn n l).
Proof.
  revert l. induction n as [| n IH]; intros l Hl; [exact Hl |].
  destruct l as [| x l]; [constructor |]. apply Forall_cons_iff in Hl as [_ Hl].
  exact (IH l Hl).
Qed.

Lemma length_le32s (n : nat) (l : list Z) : length (le32s n l) = n.
Proof. revert l. induction n; intros l; cbn; [reflexivity | now rewrite IHn]. Qed.

(** [PutUint32] undoes [Uint32] on four bytes. *)
Lemma put_u32_le32 (l : list Z) :
  Forall is_byte l -> (4 <= length l)%nat -> put_u32 (le32 l) = firstn 4 l.
Proof.
  intros Hl Hlen.
  destruct l as [| b0 [| b1 [| b2 [| b3 rest]]]]; cbn [length] in Hlen; try lia.
  apply Forall_cons_iff in Hl as [H0 Hl]. apply Forall_cons_iff in Hl as [H1 Hl].
  apply Forall_cons_iff in Hl as [H2 Hl]. apply Forall_cons_iff in Hl as [H3 _].
  rewrite le32_bytes by assumption. unfold put_u32, is_byte in *.
  rewrite !land_255, !Z.shiftr_div_pow2 by lia. cbn [firstn].
  change (2 ^ 8) with 256 in *. change (2 ^ 16) with 65536 in *.
  change (2 ^ 24) with 16777216 in *.
  set (x := b0 + b1 * 256 + b2 * 65536 + b3 * 16777216).
  assert (E0 : x mod 256 = b0)
    by (symmetry; apply Z.mod_unique with (q := b1 + b2 * 256 + b3 * 65536); lia).
  assert (E1 : x / 256 = b1 + b2 * 256 + b3 * 65536)
    by (symmetry; apply Z.div_unique with (r := b0); lia).
  assert (E2 : x / 65536 = b2 + b3 * 256)
    by (symmetry; apply Z.div_unique with (r := b0 + b1 * 256); lia).
  assert (E3 : x / 16777216 = b3)
    by (symmetry; apply Z.div_unique with (r := b0 + b1 * 256 + b2 * 65536); lia).
  rewrite E0, E1, E2, E3.
  assert (F1 : (b1 + b2 * 256 + b3 * 65536) mod 256 = b1)
    by (symmetry; apply Z.mod_unique with (q := b2 + b3 * 256); lia).
  assert (F2 : (b2 + b3 * 256) mod 256 = b2)
    by (symmetry; apply Z.mod_unique with (q := b3); lia).
  assert (F3 : b3 mod 256 = b3) by (apply Z.mod_small; lia).
  rewrite F1, F2, F3. reflexivity.
Qed.

(** Re-encoding [n] decoded words gives back their [4n] bytes. *)
Lemma flat_map_put_u32_le32s (n : nat) (l : list Z) :
  Forall is_byte l -> (4 * n <= length l)%nat ->
  flat_map put_u32 (le32s n l) = firstn (4 * n) l.
Proof.
  revert l. induction n as [| n IH]; intros l Hl Hlen; [reflexivity |].
  cbn [le32s flat_map]. rewrite put_u32_le32 by (assumption || lia).
  replace (4 * S n)%nat with (4 + 4 * n)%nat by lia. rewrite firstn_plus.
  f_equal. apply IH; [apply Forall_skipn_bytes; exact Hl | rewrite length_skipn; lia].
Qed.

(** [UnmarshalBinary]'s id loop, when the data ends before [n] ids: the
    [k] whole words that are there, then zeros; the error is [EOF] when
    the data stops on a word boundary and [ErrUnexpectedEOF] otherwise. *)
Lemma unmarshal_ids_short (n : nat) (s : list Z) (p : Z) :
  0 <= p <= Z.of_nat (length s) -> Z.of_nat (length s) < p + 4 * Z.of_nat n ->
  unmarshal_ids n {| rd_s := s; rd_i := p |} =
  (le32s (Z.to_nat ((Z.of_nat (length s) - p) / 4)) (skipn (Z.to_nat p) s) ++
   repeat 0 (n - Z.to_nat ((Z.of_nat (length s) - p) / 4)),
   Some (if (Z.of_nat (length s) - p) mod 4 =? 0 then EOF else ErrUnexpectedEOF)).
Proof.
  revert p. induction n as [| n IH]; intros p Hp Hlen; [lia |].
  cbn [unmarshal_ids].
  destruct (Z.le_gt_cases (p + 4) (Z.of_nat (length s))) as [Hok | Hko].
  - rewrite read_u32_at by lia. rewrite IH by lia.
    set (x := Z.of_nat (length s) - p).
    replace (Z.of_nat (length s) - (p + 4)) with (x - 4) by (unfold x; lia).
    assert (Hq : x / 4 = (x - 4) / 4 + 1)
      by (replace x with ((x - 4) + 1 * 4) at 1 by lia; apply Z.div_add; lia).
    assert (Hm : x mod 4 = (x - 4) mod 4)
      by (replace x with ((x - 4) + 1 * 4) at 1 by lia; apply Z.mod_add; lia).
    assert (Hpos : 0 <= (x - 4) / 4) by (apply Z.div_pos; unfold x; lia).
    rewrite Hq, Hm. replace (Z.to_nat ((x - 4) / 4 + 1)) with (S (Z.to_nat ((x - 4) / 4))) by lia.
    cbn [le32s app]. rewrite skipn_skipn.
    replace (Z.to_nat (p + 4)) with (4 + Z.to_nat p)%nat by lia. reflexivity.
  - destruct (Z.leb_spec (Z.of_nat (length s)) p) as [Heof | Hpart].
    + rewrite read_u32_eof by lia.
      replace (Z.of_nat (length s) - p) with 0 by lia. reflexivity.
    + rewrite read_u32_partial by lia.
      set (x := Z.of_nat (length s) - p).
      assert (Hq : x / 4 = 0) by (apply Z.div_small; unfold x; lia).
      assert (Hm : (x mod 4 =? 0) = false)
        by (apply Z.eqb_neq; rewrite Z.mod_small by (unfold x; lia); unfold x; lia).
      rewrite Hq, Hm. reflexivity.
Qed.

(** [ReadResourceIdsBlock]'s loop on a [bytes.Reader] with [4n] bytes left. *)
Lemma read_ids_bytes (n : nat) (s : list Z) (p : Z) :
  0 <= p -> p + 4 * Z.of_nat n <= Z.of_nat (length s) ->
  read_ids n {| rd_s := s; rd_i := p |} =
  (le32s n (skipn (Z.to_nat p) s), {| rd_s := s; rd_i := p + 4 * Z.of_nat n |}).
Proof.
  revert p. induction n as [| n IH]; intros p Hp Hlen.
  - cbn. f_equal. f_equal. lia.
  - cbn [read_ids]. rewrite read_u32_into_at by lia. cbv beta iota.
    rewrite IH by lia. cbn [le32s]. rewrite skipn_skipn.
    replace (Z.to_nat (p + 4)) with (4 + Z.to_nat p)%nat by lia.
    replace (p + 4 + 4 * Z.of_nat n) with (p + 4 * Z.of_nat (S n)) by lia. reflexivity.
Qed.

(** [ReadResourceIdsBlock] on a [bytes.Reader] whose (effective) start
    position [q] has [4n] bytes after it. *)
Lemma read_rid_bytes (data : list Z) (pos size offset q : Z) :
  q = (if offset <? 0 then pos else offset) -> 0 <= q ->
  q + 4 * Z.of_nat (rid_count size) <= Z.of_nat (length data) ->
  ReadResourceIdsBlock {| rd_s := data; rd_i := pos |} size offset =
  ({| Type_ := CHUNK_RESOURCEIDS; Size := size; Offset := offset;
      Ids := le32s (rid_count size) (skipn (Z.to_nat q) data) |}, None,
   {| rd_s := data; rd_i := q + 4 * Z.of_nat (rid_count size) |}).
Proof.
  intros Hq Hq0 Hlen. unfold ReadResourceIdsBlock.
  replace (seek offset 0 {| rd_s := data; rd_i := pos |}) with {| rd_s := data; rd_i := q |}.
  - rewrite read_ids_bytes by assumption. reflexivity.
  - cbn [seek BytesReader_ReadSeeker]. unfold bytes_seek. cbn [Z.eqb].
    rewrite Hq. destruct (Z.ltb offset 0); reflexivity.
Qed.

(** ** The resource-id codec: errors, edges and round trips *)

(** X: fewer than 4 bytes: [UnmarshalBinary] leaves the receiver untouched
    and reports [EOF] on empty data, [ErrUnexpectedEOF] otherwise. *)
Theorem UnmarshalBinary_short_type (b : ResourceIdsBlock) (data : list Z) :
  (length data < 4)%nat ->
  UnmarshalBinary b data =
  (b, Some (RidRead (match data with [] => EOF | _ :: _ => ErrUnexpectedEOF end))).
Proof.
  intros Hl. unfold UnmarshalBinary, bytes_NewReader.
  destruct data as [| x0 data].
  - rewrite read_u32_eof by (cbn; lia). reflexivity.
  - rewrite read_u32_partial by (cbn [length] in *; lia). reflexivity.
Qed.

(** X: a wrong type word: the error carries it, and the receiver's [Type]
    has already been overwritten with it (the other fields are kept). *)
Theorem UnmarshalBinary_wrong_type (b : ResourceIdsBlock) (data : list Z) :
  (4 <= length data)%nat -> word_at data 0 <> CHUNK_RESOURCEIDS ->
  UnmarshalBinary b data =
  ({| Type_ := word_at data 0; Size := b.(Size); Offset := b.(Offset); Ids := b.(Ids) |},
   Some (RidWrongType (word_at data 0))).
Proof.
  intros Hl Ht. unfold UnmarshalBinary, bytes_NewReader.
  rewrite read_u32_at by lia. cbv beta iota zeta.
  destruct (Z.eqb_spec (word_at data 0) CHUNK_RESOURCEIDS); [contradiction | reflexivity].
Qed.

(** X: a right type word but no whole size word: [Type] is set, [Size] and
    [Ids] keep the receiver's values, and the read error is returned. *)
Theorem UnmarshalBinary_short_size (b : ResourceIdsBlock) (data : list Z) :
  (4 <= length data < 8)%nat -> word_at data 0 = CHUNK_RESOURCEIDS ->
  UnmarshalBinary b data =
  ({| Type_ := CHUNK_RESOURCEIDS; Size := b.(Size); Offset := b.(Offset); Ids := b.(Ids) |},
   Some (RidRead (if (length data =? 4)%nat then EOF else ErrUnexpectedEOF))).
Proof.
  intros Hl Ht. unfold UnmarshalBinary, bytes_NewReader.
  rewrite read_u32_at by lia. cbv beta iota zeta. rewrite Ht, Z.eqb_refl. cbn [negb].
  replace (0 + 4) with 4 by reflexivity.
  destruct (Nat.eqb_spec (length data) 4).
  - rewrite read_u32_eof by lia. reflexivity.
  - rewrite read_u32_partial by lia. reflexivity.
Qed.

(** X: ids cut short: the slice has the declared count [n]; the [k] whole
    words present are stored, the rest stay zero, and the error is [EOF]
    or [ErrUnexpectedEOF] by whether the data ends on a word boundary. *)
Theorem UnmarshalBinary_truncated_ids (b : ResourceIdsBlock) (data : list Z) :
  let len := Z.of_nat (length data) in
  let n := rid_count (word_at data 4) in
  let k := Z.to_nat ((len - 8) / 4) in
  8 <= len < 8 + 4 * Z.of_nat n -> word_at data 0 = CHUNK_RESOURCEIDS ->
  UnmarshalBinary b data =
  ({| Type_ := CHUNK_RESOURCEIDS; Size := word_at data 4; Offset := b.(Offset);
      Ids := le32s k (skipn 8 data) ++ repeat 0 (n - k) |},
   Some (RidRead (if (len - 8) mod 4 =? 0 then EOF else ErrUnexpectedEOF))).
Proof.
  intros len n k Hl Ht. unfold UnmarshalBinary, bytes_NewReader.
  rewrite read_u32_at by lia. cbv beta iota zeta. rewrite Ht, Z.eqb_refl. cbn [negb].
  replace (0 + 4) with 4 by reflexivity.
  rewrite read_u32_at by lia. cbv beta iota zeta. replace (4 + 4) with 8 by reflexivity.
  fold n. rewrite unmarshal_ids_short by lia. reflexivity.
Qed.

(** X: decode then encode: whenever [UnmarshalBinary] succeeds on a byte
    slice, the block has type [CHUNK_RESOURCEIDS] and [Size/4 - 2] ids,
    and [MarshalBinary] gives back exactly the bytes it consumed. *)
Theorem UnmarshalBinary_then_MarshalBinary (recv b : ResourceIdsBlock) (data : list Z) :
  Forall is_byte data ->
  UnmarshalBinary recv data = (b, None) ->
  b.(Type_) = CHUNK_RESOURCEIDS /\ length b.(Ids) = rid_count b.(Size) /\
  fst (MarshalBinary b) = firstn (8 + 4 * length b.(Ids)) data.
Proof.
  intros Hbytes H. unfold UnmarshalBinary, bytes_NewReader in H.
  assert (H4 : 4 <= Z.of_nat (length data)).
  { destruct (Z.le_gt_cases 4 (Z.of_nat (length data))) as [? | Hlt]; [assumption |].
    destruct (read_u32_short data 0 ltac:(lia) ltac:(lia)) as (e & r' & He).
    rewrite He in H. discriminate. }
  rewrite read_u32_at in H by lia. cbv beta iota zeta in H.
  destruct (Z.eqb_spec (word_at data 0) CHUNK_RESOURCEIDS) as [Ht | Ht];
    cbn [negb] in H; [| discriminate].
  replace (0 + 4) with 4 in H by reflexivity.
  assert (H8 : 8 <= Z.of_nat (length data)).
  { destruct (Z.le_gt_cases 8 (Z.of_nat (length data))) as [? | Hlt]; [assumption |].
    destruct (read_u32_short data 4 ltac:(lia) ltac:(lia)) as (e & r' & He).
    rewrite He in H. discriminate. }
  rewrite read_u32_at in H by lia. cbv beta iota zeta in H.
  replace (4 + 4) with 8 in H by reflexivity.
  set (n := rid_count (word_at data 4)) in H.
  destruct (unmarshal_ids_bytes n data 8 ltac:(lia)) as [Hok Hko].
  assert (Hn : 8 + 4 * Z.of_nat n <= Z.of_nat (length data)).
  { destruct (Z.le_gt_cases (8 + 4 * Z.of_nat n) (Z.of_nat (length data))) as [? | Hlt];
      [assumption |].
    destruct (Nat.eq_dec n 0) as [E0 | E0]; [rewrite E0 in Hlt; lia |].
    destruct (Hko ltac:(lia) Hlt) as (ids & e & He). rewrite He in H. discriminate. }
  rewrite Hok in H by lia. cbn [option_map] in H.
  injection H as <-. unfold with_ids, with_size, with_type; cbn [Type_ Size Ids].
  rewrite length_le32s. split; [exact Ht | split; [reflexivity |]].
  unfold MarshalBinary, fst. cbn [Type_ Size Ids].
  unfold word_at. change (Z.to_nat 0) with 0%nat. change (Z.to_nat 4) with 4%nat.
  change (skipn 0 data) with data.
  match goal with
  | |- context [le32s n ?t] =>
      replace t with (skipn 4 (skipn 4 data)) by (rewrite skipn_skipn; reflexivity)
  end.
  rewrite (put_u32_le32 data) by (assumption || lia).
  rewrite (put_u32_le32 (skipn 4 data))
    by first [apply Forall_skipn_bytes; assumption | rewrite length_skipn; lia].
  rewrite flat_map_put_u32_le32s
    by first [apply Forall_skipn_bytes, Forall_skipn_bytes; assumption | rewrite !length_skipn; lia].
  replace (8 + 4 * n)%nat with (4 + (4 + 4 * n))%nat by lia.
  rewrite !firstn_plus. reflexivity.
Qed.

(** X: [ReadResourceIdsBlock] on a [bytes.Reader] with the ids in place:
    it seeks to [offset], reads [n = size/4 - 2] little-endian words from
    there and leaves the reader just after them. *)
Theorem ReadResourceIdsBlock_bytes (data : list Z) (pos size offset : Z) :
  0 <= offset -> offset + 4 * Z.of_nat (rid_count size) <= Z.of_nat (length data) ->
  ReadResourceIdsBlock {| rd_s := data; rd_i := pos |} size offset =
  ({| Type_ := CHUNK_RESOURCEIDS; Size := size; Offset := offset;
      Ids := le32s (rid_count size) (skipn (Z.to_nat offset) data) |}, None,
   {| rd_s := data; rd_i := offset + 4 * Z.of_nat (rid_count size) |}).
Proof.
  intros Ho Hlen. apply read_rid_bytes; [| lia | lia].
  destruct (Z.ltb_spec offset 0); [lia | reflexivity].
Qed.

(** X: with a negative [offset] the [Seek] fails (its error is ignored):
    the ids are read from wherever the reader already is, while the
    returned block still records the negative [Offset]. *)
Theorem ReadResourceIdsBlock_negative_offset (data : list Z) (pos size offset : Z) :
  offset < 0 -> 0 <= pos -> pos + 4 * Z.of_nat (rid_count size) <= Z.of_nat (length data) ->
  ReadResourceIdsBlock {| rd_s := data; rd_i := pos |} size offset =
  ({| Type_ := CHUNK_RESOURCEIDS; Size := size; Offset := offset;
      Ids := le32s (rid_count size) (skipn (Z.to_nat pos) data) |}, None,
   {| rd_s := data; rd_i := pos + 4 * Z.of_nat (rid_count size) |}).
Proof.
  intros Ho Hp Hlen. apply read_rid_bytes; [| lia | lia].
  destruct (Z.ltb_spec offset 0); [reflexivity | lia].
Qed.

(** X: [ReadResourceIdsBlock] at offset 8 of what [MarshalBinary] wrote
    for a block with a consistent [Size] reads back its ids. *)
Theorem ReadResourceIdsBlock_MarshalBinary (b : ResourceIdsBlock) :
  b.(Size) = 8 + 4 * Z.of_nat (length b.(Ids)) -> is_u32 b.(Size) -> Forall is_u32 b.(Ids) ->
  fst (fst (ReadResourceIdsBlock (bytes_NewReader (fst (MarshalBinary b))) b.(Size) 8)) =
  {| Type_ := CHUNK_RESOURCEIDS; Size := b.(Size); Offset := 8; Ids := b.(Ids) |}.
Proof.
  intros HS HSu HI.
  assert (Hn : rid_count b.(Size) = length b.(Ids))
    by (rewrite HS; apply rid_count_of_ids; unfold is_u32 in HSu; lia).
  assert (Hlen : Z.of_nat (length (fst (MarshalBinary b))) = 8 + 4 * Z.of_nat (length b.(Ids))).
  { unfold MarshalBinary, fst. rewrite !length_app, length_flat_map_put_u32, !length_put_u32. lia. }
  unfold bytes_NewReader. rewrite (read_rid_bytes _ 0 _ 8 8) by (reflexivity || lia).
  cbn [fst]. rewrite Hn. f_equal.
  unfold MarshalBinary, fst. change (Z.to_nat 8) with (4 + 4)%nat.
  rewrite <- skipn_skipn, !skipn_put_u32.
  rewrite <- (app_nil_r (flat_map put_u32 b.(Ids))). apply le32s_flat_map; exact HI.
Qed.

(** ** [ReadAXML]: the file header, the loop and its invariants *)

Lemma read_u32_into_short (old : Z) (s : list Z) (p : Z) :
  0 <= p -> Z.of_nat (length s) < p + 4 -> fst (read_u32_into old {| rd_s := s; rd_i := p |}) = old.
Proof.
  intros Hp Hlen. destruct (read_u32_short s p Hp Hlen) as (e & r' & He).
  unfold read_u32_into. rewrite He. reflexivity.
Qed.

Lemma read_u32_into_eof (old : Z) (s : list Z) (p : Z) :
  Z.of_nat (length s) <= p ->
  read_u32_into old {| rd_s := s; rd_i := p |} = (old, {| rd_s := s; rd_i := p |}).
Proof. intros Hp. unfold read_u32_into. rewrite read_u32_eof by exact Hp. reflexivity. Qed.

Lemma read_strings_chunk_keeps {R} `{ReadSeeker R} (a : AXML) (r : R) :
  (fst (read_strings_chunk a r)).(Header) = a.(Header) /\
  (fst (read_strings_chunk a r)).(size) = a.(size).
Proof. unfold read_strings_chunk. split_matches; cbn; auto. Qed.

(** The switch lets the loop go on only for the seven chunk types, and
    only the string-pool case changes [axml] (never its header or size). *)
Lemma dispatch_continue {R} `{ReadSeeker R} (bt off : Z) (a a' : AXML) (r r' : R) :
  dispatch bt off a r = (inr a', r') ->
  is_chunk_type bt = true /\ a'.(Header) = a.(Header) /\ a'.(size) = a.(size) /\
  (bt <> CHUNK_STRINGS -> a' = a).
Proof.
  unfold dispatch, is_chunk_type. cbn [existsb].
  destruct (Z.eqb_spec bt CHUNK_RESOURCEIDS); [intros [= <- <-]; auto |].
  destruct (Z.eqb_spec bt CHUNK_STRINGS).
  { destruct (read_strings_chunk a r) as [a1 r1] eqn:E. intros [= <- <-].
    pose proof (read_strings_chunk_keeps a r) as K. rewrite E in K. cbn [fst] in K.
    cbn [orb]. repeat split; try apply K. intros Hc; contradiction. }
  destruct (Z.eqb_spec bt CHUNK_XML_END_NAMESPACE); [intros [= <- <-]; auto |].
  destruct (Z.eqb_spec bt CHUNK_XML_END_TAG); [intros [= <- <-]; auto |].
  destruct (Z.eqb_spec bt CHUNK_XML_START_NAMESPACE); [intros [= <- <-]; auto |].
  destruct (Z.eqb_spec bt CHUNK_XML_START_TAG).
  { destruct (read_start_tag off a r) as [[o |] r1]; [discriminate | intros [= <- <-]; auto]. }
  destruct (Z.eqb_spec bt CHUNK_XML_TEXT); [intros [= <- <-]; auto | discriminate].
Qed.

Lemma run_start_tag_skip (data : list Z) (off bt0 sz0 : Z) (a : AXML) :
  0 <= off -> off + 16 <= Z.of_nat (length data) -> off < a.(size) ->
  word_at data off = CHUNK_XML_START_TAG ->
  word_at data (off + 12) <> SKIP_BLOCK ->
  run_loop 1 {| ls_offset := off; ls_blocktype := bt0; ls_size := sz0; ls_axml := a;
                ls_reader := {| rd_s := data; rd_i := off |} |} =
  Some (Returned a (Some ErrSkipBlock)).
Proof.
  intros Ho Hlen Hlt Hbt Hskip.
  cbn [run_loop ls_offset ls_axml].
  destruct (Z.ltb_spec off a.(size)); [| lia].
  unfold loop_step. cbn [ls_reader ls_blocktype ls_size ls_offset ls_axml].
  read_word. read_word. rewrite Hbt, dispatch_start_tag. unfold read_start_tag.
  do 2 read_word. replace (off + 4 + 4 + 4) with (off + 12) by lia.
  apply Z.eqb_neq in Hskip. rewrite Hskip. reflexivity.
Qed.

(** X: a file whose first word is not [CHUNK_AXML_FILE] (an empty or
    shorter-than-4-byte file reads as header 0) is refused at once with
    the wrong-header error; only [Header] is set in the returned value. *)
Theorem ReadAXML_wrong_header (data : list Z) (fuel : nat) :
  let h := if (length data <? 4)%nat then 0 else word_at data 0 in
  h <> CHUNK_AXML_FILE ->
  ReadAXML fuel (bytes_NewReader data) =
  Some (Returned {| Header := h; size := 0; stringsmeta := empty_meta; Strings := [] |}
                 (Some ErrWrongHeader)).
Proof.
  intros h Hh.
  assert (Eh : fst (read_u32_into 0 {| rd_s := data; rd_i := 0 |}) = h).
  { unfold h. destruct (Nat.ltb_spec (length data) 4).
    - apply read_u32_into_short; lia.
    - rewrite read_u32_into_at by lia. reflexivity. }
  clearbody h. unfold ReadAXML, ReadAXML_start, bytes_NewReader.
  destruct (read_u32_into 0 _) as [h' r'] eqn:E. cbn [fst] in Eh. subst h'.
  apply Z.eqb_neq in Hh. rewrite Hh. reflexivity.
Qed.

(** X: with the right magic and a declared file size of at most 8 (a
    missing size word reads as 0), no chunk is read: [ReadAXML] returns
    the empty document with a nil error, even for a 4-byte file. *)
Theorem ReadAXML_no_chunks (data : list Z) (fuel : nat) :
  let sz := if (length data <? 8)%nat then 0 else word_at data 4 in
  (4 <= length data)%nat -> word_at data 0 = CHUNK_AXML_FILE -> sz <= 8 ->
  ReadAXML (S fuel) (bytes_NewReader data) =
  Some (Returned {| Header := CHUNK_AXML_FILE; size := sz; stringsmeta := empty_meta;
                    Strings := [] |} None).
Proof.
  intros sz Hl Hh Hsz.
  assert (Esz : fst (read_u32_into 0 {| rd_s := data; rd_i := 4 |}) = sz).
  { unfold sz. destruct (Nat.ltb_spec (length data) 8).
    - apply read_u32_into_short; lia.
    - rewrite read_u32_into_at by lia. reflexivity. }
  clearbody sz. unfold ReadAXML, ReadAXML_start, bytes_NewReader.
  rewrite read_u32_into_at by lia. cbv beta iota. rewrite Hh, Z.eqb_refl. cbn [negb].
  replace (0 + 4) with 4 by reflexivity.
  destruct (read_u32_into 0 _) as [sz' r'] eqn:E. cbn [fst] in Esz. subst sz'.
  cbn [run_loop ls_offset ls_axml size].
  destruct (Z.ltb_spec 8 sz); [lia | reflexivity].
Qed.

(** X: a file that stops after its 8-byte header (fewer than 12 bytes)
    but declares a larger size does not fail with a read error: the
    failed read leaves [blocktype] at 0, reported as unknown chunk type 0. *)
Theorem ReadAXML_header_only (data : list Z) (fuel : nat) :
  (8 <= length data < 12)%nat -> word_at data 0 = CHUNK_AXML_FILE -> 8 < word_at data 4 ->
  ReadAXML (S fuel) (bytes_NewReader data) =
  Some (Returned {| Header := CHUNK_AXML_FILE; size := word_at data 4; stringsmeta := empty_meta;
                    Strings := [] |} (Some (ErrUnknownChunk 0))).
Proof.
  intros Hl Hh Hsz. unfold ReadAXML, ReadAXML_start, bytes_NewReader.
  rewrite read_u32_into_at by lia. cbv beta iota. rewrite Hh, Z.eqb_refl. cbn [negb].
  replace (0 + 4) with 4 by reflexivity.
  rewrite read_u32_into_at by lia. cbv beta iota. replace (4 + 4) with 8 by reflexivity.
  cbn [run_loop ls_offset ls_axml size].
  destruct (Z.ltb_spec 8 (word_at data 4)); [| lia].
  unfold loop_step. cbn [ls_reader ls_blocktype ls_size ls_offset ls_axml].
  pose proof (read_u32_into_short 0 data 8 ltac:(lia) ltac:(lia)) as E1.
  destruct (read_u32_into 0 {| rd_s := data; rd_i := 8 |}) as [bt r1]. cbn [fst] in E1. subst bt.
  destruct (read_u32_into 0 r1) as [sz r2].
  rewrite dispatch_unknown by reflexivity. reflexivity.
Qed.

(** X: at every iteration of the loop over a [bytes.Reader], the reader
    holds the input and is positioned at the running [offset]: each chunk
    header is read at its offset. *)
Theorem ReadAXML_reader_at_offset (data : list Z) (st : loop_state BytesReader) :
  reaches (bytes_NewReader data) st -> st.(ls_offset) < st.(ls_axml).(size) ->
  st.(ls_reader) = {| rd_s := data; rd_i := st.(ls_offset) |} /\ 0 <= st.(ls_offset) < 2 ^ 32.
Proof.
  intros Hr Hlt. destruct (reaches_bytes data st Hr) as (Hd & Ho & Hi).
  specialize (Hi Hlt). destruct st.(ls_reader) as [s i]; cbn in *. subst. auto.
Qed.

(** X: an iteration that does not return had a known chunk type; it
    moves [offset] to [offset + size] modulo [2^32], never changes the
    header or the declared file size, and leaves [axml] as it was unless
    the chunk is a string pool. *)
Theorem loop_step_continue {R} `{ReadSeeker R} (st st' : loop_state R) :
  loop_step st = Continue st' ->
  is_chunk_type st'.(ls_blocktype) = true /\
  st'.(ls_offset) = wrap32 (st.(ls_offset) + st'.(ls_size)) /\
  st'.(ls_axml).(Header) = st.(ls_axml).(Header) /\
  st'.(ls_axml).(size) = st.(ls_axml).(size) /\
  (st'.(ls_blocktype) <> CHUNK_STRINGS -> st'.(ls_axml) = st.(ls_axml)).
Proof.
  unfold loop_step.
  destruct (read_u32_into st.(ls_blocktype) st.(ls_reader)) as [bt r1].
  destruct (read_u32_into st.(ls_size) r1) as [sz r2].
  destruct (dispatch bt st.(ls_offset) st.(ls_axml) r2) as [[o | a] r3] eqn:Ed; [discriminate |].
  intros [= <-]. cbn [ls_blocktype ls_offset ls_size ls_axml].
  destruct (dispatch_continue _ _ _ _ _ _ Ed) as (Hc & Hh & Hs & Ha). auto.
Qed.

(** X: once the input is exhausted (the reader at or past its end), the
    two header reads fail and [blocktype] and [size] keep the previous
    chunk's values: a resource-id, namespace, end-tag or text chunk is
    processed again and [offset] advances by its size again, with no
    error. *)
Theorem loop_step_past_end (st : loop_state BytesReader) :
  Z.of_nat (length (rd_s st.(ls_reader))) <= rd_i st.(ls_reader) ->
  is_chunk_type st.(ls_blocktype) = true ->
  st.(ls_blocktype) <> CHUNK_STRINGS -> st.(ls_blocktype) <> CHUNK_XML_START_TAG ->
  loop_step st =
  Continue {| ls_offset := wrap32 (st.(ls_offset) + st.(ls_size));
              ls_blocktype := st.(ls_blocktype); ls_size := st.(ls_size);
              ls_axml := st.(ls_axml);
              ls_reader := seek (wrap32 (st.(ls_offset) + st.(ls_size))) 0 st.(ls_reader) |}.
Proof.
  destruct st as [off bt sz a [s i]].
  cbn [ls_reader ls_blocktype ls_offset ls_size ls_axml rd_s rd_i].
  intros Hend Hc Hns Hnt. unfold loop_step.
  cbn [ls_reader ls_blocktype ls_offset ls_size ls_axml].
  rewrite !read_u32_into_eof by exact Hend. cbv beta iota.
  revert Hc. unfold dispatch, is_chunk_type. cbn [existsb].
  destruct (Z.eqb_spec bt CHUNK_RESOURCEIDS); [reflexivity |].
  destruct (Z.eqb_spec bt CHUNK_STRINGS); [contradiction |].
  destruct (Z.eqb_spec bt CHUNK_XML_END_NAMESPACE); [reflexivity |].
  destruct (Z.eqb_spec bt CHUNK_XML_END_TAG); [reflexivity |].
  destruct (Z.eqb_spec bt CHUNK_XML_START_NAMESPACE); [reflexivity |].
  destruct (Z.eqb_spec bt CHUNK_XML_START_TAG); [contradiction |].
  destruct (Z.eqb_spec bt CHUNK_XML_TEXT); [reflexivity | discriminate].
Qed.

(** X: a tag-start chunk reached by the loop whose second word after the
    chunk header is not the [0xFFFFFFFF] sentinel makes [ReadAXML] return
    the sentinel error with the document read so far. *)
Theorem ReadAXML_start_tag_bad_skip (data : list Z) (st : loop_state BytesReader) :
  reaches (bytes_NewReader data) st ->
  st.(ls_offset) < st.(ls_axml).(size) ->
  st.(ls_offset) + 16 <= Z.of_nat (length data) ->
  word_at data st.(ls_offset) = CHUNK_XML_START_TAG ->
  word_at data (st.(ls_offset) + 12) <> SKIP_BLOCK ->
  exists n, ReadAXML n (bytes_NewReader data) = Some (Returned st.(ls_axml) (Some ErrSkipBlock)).
Proof.
  intros Hr Hlt Hlen Hbt Hskip.
  destruct (reaches_bytes data st Hr) as (Hd & Ho & Hi). specialize (Hi Hlt).
  destruct (reaches_run _ st Hr) as [k Hk]. exists (k + 1)%nat. rewrite Hk.
  destruct st as [off bt0 sz0 a [s i]]. cbn [ls_offset ls_axml ls_reader rd_s rd_i] in *.
  subst s i. apply run_start_tag_skip; lia || assumption.
Qed.

(** ** The string pool *)

Lemma length_read_data_offsets {R} `{ReadSeeker R} (n : nat) (r : R) :
  length (fst (read_data_offsets n r)) = n.
Proof.
  revert r. induction n as [| n IH]; intros r; [reflexivity |]. cbn [read_data_offsets].
  destruct (read_u32_into 0 r) as [o r1].
  specialize (IH r1). destruct (read_data_offsets n r1) as [os r2]. cbn in *. lia.
Qed.

Lemma length_read_utf16_strings {R} `{ReadSeeker R} (fuel : nat) (i ns : Z) (r : R) :
  length (fst (read_utf16_strings fuel i ns r)) = fuel.
Proof.
  revert i r. induction fuel as [| fuel IH]; intros i r; [reflexivity |].
  cbn [read_utf16_strings].
  destruct (read_u16_into 0 r) as [sz r1]. destruct (read_u16_slice (Z.to_nat sz) r1) as [u r2].
  set (r3 := if negb (i =? wrap32 (ns - 1)) then seek 2 1 r2 else r2).
  specialize (IH (i + 1) r3). destruct (read_utf16_strings fuel (i + 1) ns r3) as [ss r4].
  cbn in *. lia.
Qed.

(** X: a string-pool chunk never changes the header or the file size;
    it overwrites [Nstrings] (and the other counters) but appends its
    [Nstrings] string offsets to [DataOffset]: with several pools the
    offsets accumulate while [Nstrings] only counts the last pool. *)
Theorem read_strings_chunk_offsets {R} `{ReadSeeker R} (a : AXML) (r : R) :
  let a' := fst (read_strings_chunk a r) in
  a'.(Header) = a.(Header) /\ a'.(size) = a.(size) /\
  exists offs, a'.(stringsmeta).(DataOffset) = a.(stringsmeta).(DataOffset) ++ offs /\
               length offs = Z.to_nat a'.(stringsmeta).(Nstrings).
Proof.
  cbv zeta. unfold read_strings_chunk. cbv zeta.
  destruct (read_u32_into a.(stringsmeta).(Nstrings) r) as [ns r1].
  destruct (read_u32_into a.(stringsmeta).(StyleOffsetCount) r1) as [sc r2].
  destruct (read_u32_into a.(stringsmeta).(Flags) r2) as [fl r3].
  destruct (read_u32_into a.(stringsmeta).(StringDataOffset) r3) as [sdo r4].
  destruct (read_u32_into a.(stringsmeta).(Stylesoffset) r4) as [so r5].
  pose proof (length_read_data_offsets (Z.to_nat ns) r5) as Lo.
  destruct (read_data_offsets (Z.to_nat ns) r5) as [offs r6]. cbn [fst] in Lo.
  destruct (negb (Z.land fl UTF8_FLAG =? 0)).
  - cbn. split; [reflexivity | split; [reflexivity |]]. exists offs. auto.
  - destruct (read_utf16_strings (Z.to_nat ns) 0 ns r6) as [ss r7].
    cbn. split; [reflexivity | split; [reflexivity |]]. exists offs. auto.
Qed.

(** X: the decoded strings of a pool are appended to [axml.Strings]: a
    pool whose flags word has [UTF8_FLAG] set adds none, any other pool
    adds exactly [Nstrings] strings (empty ones for the strings whose
    reads fail). *)
Theorem read_strings_chunk_strings {R} `{ReadSeeker R} (a : AXML) (r : R) :
  let a' := fst (read_strings_chunk a r) in
  (Z.land a'.(stringsmeta).(Flags) UTF8_FLAG <> 0 -> a'.(Strings) = a.(Strings)) /\
  (Z.land a'.(stringsmeta).(Flags) UTF8_FLAG = 0 ->
   exists ss, a'.(Strings) = a.(Strings) ++ ss /\
              length ss = Z.to_nat a'.(stringsmeta).(Nstrings)).
Proof.
  cbv zeta. unfold read_strings_chunk. cbv zeta.
  destruct (read_u32_into a.(stringsmeta).(Nstrings) r) as [ns r1].
  destruct (read_u32_into a.(stringsmeta).(StyleOffsetCount) r1) as [sc r2].
  destruct (read_u32_into a.(stringsmeta).(Flags) r2) as [fl r3].
  destruct (read_u32_into a.(stringsmeta).(StringDataOffset) r3) as [sdo r4].
  destruct (read_u32_into a.(stringsmeta).(Stylesoffset) r4) as [so r5].
  destruct (read_data_offsets (Z.to_nat ns) r5) as [offs r6].
  destruct (Z.eqb_spec (Z.land fl UTF8_FLAG) 0) as [E | E]; cbn [negb].
  - pose proof (length_read_utf16_strings (Z.to_nat ns) 0 ns r6) as Ls.
    destruct (read_utf16_strings (Z.to_nat ns) 0 ns r6) as [ss r7]. cbn [fst] in Ls.
    cbn. split; [intros C; contradiction | intros _; exists ss; auto].
  - cbn. split; [reflexivity | intros C; contradiction].
Qed.

(** ** [utf16.Decode] and [string([]rune)] *)

Lemma utf16_Decode_no_surrogates (s : list Z) :
  Forall (fun u => u < 55296 \/ 57344 <= u) s -> utf16_Decode s = s.
Proof.
  induction 1 as [| u s Hu _ IH]; [reflexivity |]. cbn [utf16_Decode].
  replace ((u <? 55296) || (57344 <=? u)) with true
    by (destruct Hu; [rewrite (proj2 (Z.ltb_lt _ _) H) | rewrite (proj2 (Z.leb_le _ _) H),
                      orb_true_r]; reflexivity).
  rewrite IH. reflexivity.
Qed.

(** X: every rune [utf16.Decode] produces from 16-bit code units is a
    Unicode scalar value: below the surrogates, or between their end and
    U+10FFFF (pairs give U+10000 and above, stray surrogates U+FFFD). *)
Theorem utf16_Decode_scalar (s : list Z) :
  Forall (fun u => 0 <= u < 65536) s ->
  Forall (fun c => 0 <= c < 55296 \/ 57344 <= c <= 1114111) (utf16_Decode s).
Proof.
  remember (length s) as n eqn:En. assert (Hn : (length s <= n)%nat) by lia. clear En.
  revert s Hn. induction n as [| n IH]; intros s Hn Hs.
  - destruct s; [constructor | cbn in Hn; lia].
  - destruct s as [| u tl]; [constructor |]. cbn [length] in Hn.
    apply Forall_cons_iff in Hs as [Hu Htl]. cbn [utf16_Decode].
    destruct (Z.ltb_spec u 55296), (Z.leb_spec 57344 u); cbn [orb].
    1-3: constructor; [lia | apply IH; [lia | exact Htl]].
    destruct tl as [| u2 tl'].
    + constructor; [lia | constructor].
    + apply Forall_cons_iff in Htl as [Hu2 Htl']. cbn [length] in Hn.
      destruct (Z.ltb_spec u 56320), (Z.leb_spec 56320 u2), (Z.ltb_spec u2 57344); cbn [andb].
      1: { constructor; [| apply IH; [lia | exact Htl']].
           rewrite Z.lor_comm, Z.shiftl_mul_pow2 by lia.
           rewrite lor_disjoint_add by lia. change (2 ^ 10) with 1024. right. nia. }
      all: constructor; [lia | apply IH; [cbn [length]; lia | constructor; assumption]].
Qed.

(** X: a string of ASCII code units comes out of the UTF-16 path as the
    same bytes: [string(utf16.Decode(u))] is [u] itself. *)
Theorem string_of_utf16_ascii (s : list Z) :
  Forall (fun u => 0 <= u < 128) s -> string_of_runes (utf16_Decode s) = s.
Proof.
  intros Hs. rewrite utf16_Decode_no_surrogates
    by (eapply Forall_impl; [| exact Hs]; cbn; intros; lia).
  induction Hs as [| u s Hu _ IH]; [reflexivity |].
  unfold string_of_runes in *. cbn [flat_map]. unfold utf8_EncodeRune at 1.
  destruct (Z.ltb_spec u 128); [| lia]. cbn [app]. rewrite IH. reflexivity.
Qed.

(** ** Witnesses of the further properties *)

Ltac forall_lia :=
  repeat first [apply Forall_nil | apply Forall_cons]; cbv beta; try unfold is_byte, is_u32; lia.

(** Witness: two bytes. *)
Lemma UnmarshalBinary_short_type_witness :
  UnmarshalBinary rid_stale [1; 2] = (rid_stale, Some (RidRead ErrUnexpectedEOF)).
Proof. apply (UnmarshalBinary_short_type rid_stale [1; 2]). cbn. lia. Defined.

(** Witness: type word 7. *)
Lemma UnmarshalBinary_wrong_type_witness :
  UnmarshalBinary rid_stale (put_u32 7 ++ [0]) =
  ({| Type_ := 7; Size := 8; Offset := 0; Ids := [1] |}, Some (RidWrongType 7)).
Proof.
  apply (UnmarshalBinary_wrong_type rid_stale (put_u32 7 ++ [0])); vm_compute; [lia | discriminate].
Defined.

(** Witness: the type word and two bytes of the size word. *)
Lemma UnmarshalBinary_short_size_witness :
  UnmarshalBinary rid_stale (put_u32 CHUNK_RESOURCEIDS ++ [1; 2]) =
  ({| Type_ := CHUNK_RESOURCEIDS; Size := 8; Offset := 0; Ids := [1] |},
   Some (RidRead ErrUnexpectedEOF)).
Proof.
  apply (UnmarshalBinary_short_size rid_stale (put_u32 CHUNK_RESOURCEIDS ++ [1; 2]));
    vm_compute; [lia | reflexivity].
Defined.

(** Witness: size 20 declares 3 ids; one word and two bytes follow. *)
Lemma UnmarshalBinary_truncated_ids_witness :
  UnmarshalBinary rid_zero (put_u32 CHUNK_RESOURCEIDS ++ put_u32 20 ++ put_u32 5 ++ [1; 2]) =
  ({| Type_ := CHUNK_RESOURCEIDS; Size := 20; Offset := 0; Ids := [5; 0; 0] |},
   Some (RidRead ErrUnexpectedEOF)).
Proof.
  apply (UnmarshalBinary_truncated_ids rid_zero
           (put_u32 CHUNK_RESOURCEIDS ++ put_u32 20 ++ put_u32 5 ++ [1; 2]));
    vm_compute; first [reflexivity | split; first [discriminate | reflexivity]].
Defined.

(** Witness: one id followed by a trailing byte that is not consumed. *)
Lemma UnmarshalBinary_then_MarshalBinary_witness :
  let data := put_u32 CHUNK_RESOURCEIDS ++ put_u32 12 ++ put_u32 7 ++ [9] in
  let b := fst (UnmarshalBinary rid_zero data) in
  b.(Type_) = CHUNK_RESOURCEIDS /\ length b.(Ids) = rid_count b.(Size) /\
  fst (MarshalBinary b) = firstn (8 + 4 * length b.(Ids)) data.
Proof.
  apply (UnmarshalBinary_then_MarshalBinary rid_zero).
  - vm_compute.
    repeat first [apply Forall_nil | apply Forall_cons | split | reflexivity | discriminate].
  - vm_compute. reflexivity.
Defined.

(** Witness: two ids at offset 4 of a reader positioned at 0. *)
Lemma ReadResourceIdsBlock_bytes_witness :
  ReadResourceIdsBlock {| rd_s := [0; 0; 0; 0] ++ put_u32 7 ++ put_u32 8; rd_i := 0 |} 16 4 =
  ({| Type_ := CHUNK_RESOURCEIDS; Size := 16; Offset := 4; Ids := [7; 8] |}, None,
   {| rd_s := [0; 0; 0; 0] ++ put_u32 7 ++ put_u32 8; rd_i := 12 |}).
Proof.
  exact (ReadResourceIdsBlock_bytes ([0; 0; 0; 0] ++ put_u32 7 ++ put_u32 8) 0 16 4
           ltac:(lia) ltac:(vm_compute; discriminate)).
Defined.

(** Witness: offset -1 with the reader at 4. *)
Lemma ReadResourceIdsBlock_negative_offset_witness :
  ReadResourceIdsBlock {| rd_s := [0; 0; 0; 0] ++ put_u32 7 ++ put_u32 8; rd_i := 4 |} 16 (-1) =
  ({| Type_ := CHUNK_RESOURCEIDS; Size := 16; Offset := -1; Ids := [7; 8] |}, None,
   {| rd_s := [0; 0; 0; 0] ++ put_u32 7 ++ put_u32 8; rd_i := 12 |}).
Proof.
  exact (ReadResourceIdsBlock_negative_offset ([0; 0; 0; 0] ++ put_u32 7 ++ put_u32 8) 4 16 (-1)
           ltac:(lia) ltac:(lia) ltac:(vm_compute; discriminate)).
Defined.

(** Witness: the block [rid_one]. *)
Lemma ReadResourceIdsBlock_MarshalBinary_witness :
  fst (fst (ReadResourceIdsBlock (bytes_NewReader (fst (MarshalBinary rid_one))) 12 8)) =
  {| Type_ := CHUNK_RESOURCEIDS; Size := 12; Offset := 8; Ids := [1] |}.
Proof. apply (ReadResourceIdsBlock_MarshalBinary rid_one); u32_facts. Defined.

(** Witness: the empty file. *)
Lemma ReadAXML_wrong_header_witness :
  ReadAXML 1 (bytes_NewReader []) =
  Some (Returned {| Header := 0; size := 0; stringsmeta := empty_meta; Strings := [] |}
                 (Some ErrWrongHeader)).
Proof. exact (ReadAXML_wrong_header [] 1 ltac:(vm_compute; discriminate)). Defined.

(** Witness: a file of the 4-byte magic only. *)
Lemma ReadAXML_no_chunks_witness :
  ReadAXML 1 (bytes_NewReader (put_u32 CHUNK_AXML_FILE)) =
  Some (Returned {| Header := CHUNK_AXML_FILE; size := 0; stringsmeta := empty_meta;
                    Strings := [] |} None).
Proof.
  exact (ReadAXML_no_chunks (put_u32 CHUNK_AXML_FILE) 0
           ltac:(vm_compute; lia) ltac:(vm_compute; reflexivity) ltac:(vm_compute; discriminate)).
Defined.

(** Witness: an 8-byte file declaring 100 bytes. *)
Lemma ReadAXML_header_only_witness :
  ReadAXML 1 (bytes_NewReader (put_u32 CHUNK_AXML_FILE ++ put_u32 100)) =
  Some (Returned {| Header := CHUNK_AXML_FILE; size := 100; stringsmeta := empty_meta;
                    Strings := [] |} (Some (ErrUnknownChunk 0))).
Proof.
  exact (ReadAXML_header_only (put_u32 CHUNK_AXML_FILE ++ put_u32 100) 0
           ltac:(vm_compute; lia) ltac:(vm_compute; reflexivity) ltac:(vm_compute; reflexivity)).
Defined.

(** Witness: the first loop state of [doc_unknown_chunk]. *)
Lemma ReadAXML_reader_at_offset_witness :
  {| rd_s := doc_unknown_chunk; rd_i := 8 |} = {| rd_s := doc_unknown_chunk; rd_i := 8 |} /\
  0 <= 8 < 2 ^ 32.
Proof.
  apply (ReadAXML_reader_at_offset doc_unknown_chunk
           {| ls_offset := 8; ls_blocktype := 0; ls_size := 0;
              ls_axml := {| Header := CHUNK_AXML_FILE; size := 16; stringsmeta := empty_meta;
                            Strings := [] |};
              ls_reader := {| rd_s := doc_unknown_chunk; rd_i := 8 |} |}).
  - apply reaches_start. vm_compute. reflexivity.
  - vm_compute. reflexivity.
Defined.

(** Witness: the zero-size chunk state steps to itself. *)
Lemma loop_step_continue_witness :
  is_chunk_type zero_chunk_state.(ls_blocktype) = true /\
  zero_chunk_state.(ls_offset) = wrap32 (zero_chunk_state.(ls_offset) + zero_chunk_state.(ls_size)) /\
  zero_chunk_state.(ls_axml).(Header) = zero_chunk_state.(ls_axml).(Header) /\
  zero_chunk_state.(ls_axml).(size) = zero_chunk_state.(ls_axml).(size) /\
  (zero_chunk_state.(ls_blocktype) <> CHUNK_STRINGS ->
   zero_chunk_state.(ls_axml) = zero_chunk_state.(ls_axml)).
Proof.
  apply (loop_step_continue zero_chunk_state zero_chunk_state). vm_compute. reflexivity.
Defined.

(** Witness: a text chunk of size 8 with the reader at the end of
    [doc_zero_chunk] (16 bytes). *)
Lemma loop_step_past_end_witness :
  loop_step {| ls_offset := 16; ls_blocktype := CHUNK_XML_TEXT; ls_size := 8;
               ls_axml := {| Header := CHUNK_AXML_FILE; size := 40; stringsmeta := empty_meta;
                             Strings := [] |};
               ls_reader := {| rd_s := doc_zero_chunk; rd_i := 16 |} |} =
  Continue {| ls_offset := 24; ls_blocktype := CHUNK_XML_TEXT; ls_size := 8;
              ls_axml := {| Header := CHUNK_AXML_FILE; size := 40; stringsmeta := empty_meta;
                            Strings := [] |};
              ls_reader := {| rd_s := doc_zero_chunk; rd_i := 24 |} |}.
Proof.
  apply loop_step_past_end; vm_compute; [discriminate | reflexivity | discriminate | discriminate].
Defined.

(** Witness: [doc_bad_skip], a tag start at offset 8 with sentinel 0. *)
Lemma ReadAXML_start_tag_bad_skip_witness :
  exists n, ReadAXML n (bytes_NewReader doc_bad_skip) =
  Some (Returned {| Header := CHUNK_AXML_FILE; size := 44; stringsmeta := empty_meta;
                    Strings := [] |} (Some ErrSkipBlock)).
Proof.
  apply (ReadAXML_start_tag_bad_skip doc_bad_skip
           {| ls_offset := 8; ls_blocktype := 0; ls_size := 0;
              ls_axml := {| Header := CHUNK_AXML_FILE; size := 44; stringsmeta := empty_meta;
                            Strings := [] |};
              ls_reader := {| rd_s := doc_bad_skip; rd_i := 8 |} |}).
  - apply reaches_start. vm_compute. reflexivity.
  - vm_compute. reflexivity.
  - vm_compute. discriminate.
  - vm_compute. reflexivity.
  - vm_compute. discriminate.
Defined.

(** Witness: the surrogate pair of U+1F600. *)
Lemma utf16_Decode_scalar_witness :
  Forall (fun c => 0 <= c < 55296 \/ 57344 <= c <= 1114111) (utf16_Decode [55357; 56832]).
Proof. apply utf16_Decode_scalar. forall_lia. Defined.

(** Witness: "hi". *)
Lemma string_of_utf16_ascii_witness : string_of_runes (utf16_Decode [104; 105]) = [104; 105].
Proof. apply string_of_utf16_ascii. forall_lia. Defined.
